(** * ADB BlueStacks automation: a shallow embedding of the orchestration core

    The development follows the layout of the Python sources:

    - [Py]              the fragment of Python values the scripts are made of
    - [Scheduler]       [modules/scheduler.py], the trigger loop
    - [OsPath], [Str]   the path and string operations the modules use
    - [ADBManager]      [modules/adb_manager.py], the screenshot sequence
    - [ImageProcessor]  [modules/image_processor.py], [find_all_templates]
    - [DeviceManager]   [modules/device_manager.py], the roster and its operations
    - [Script]          the module object of a user script
    - [ConfigLoader]    [modules/config_loader.py], the script cache
    - [ActionExecutor]  [modules/action_executor.py], [execute_config]

    Modelling conventions.  Python objects with mutable fields become records
    that are threaded through the operations; a Python [dict] used as a map
    is a [gmap]; a call that may raise returns an [outcome].  Logging and UI
    calls have no effect on the modelled state and are left out.  The
    external world (the adb executable, the file system, the wall clock) is
    an explicit argument of every operation that consults it.

    One task is followed at a time.  Of what other tasks do, the step
    executor sees the value of its [running] flag and a cancellation
    delivered at its pause gate; a cancellation delivered while a bridge
    call of the device manager is in flight is not modelled. *)

From Stdlib Require Import ZArith QArith Ascii String.
From stdpp Require Import gmap strings list pretty.

Local Open Scope string_scope.
Local Open Scope list_scope.
Local Open Scope Z_scope.

(** ** Outcomes of calls that may raise *)

(** [Raised msg] stands for any exception derived from [Exception], with
    [msg] its [str(e)]; it is what an [except Exception] clause catches. *)
Inductive outcome (A : Type) : Type :=
  | Returned (a : A)
  | Raised (msg : string).
Arguments Returned {A} a.
Arguments Raised {A} msg.

(** ** Python values *)

Module Py.

(** The values a script's [CONFIG] dictionary is built from.  Dictionaries
    keep their keys as strings, as every key of the sample scripts is. *)
#[warnings="-register-all"]
Inductive pyval : Type :=
  | VNone
  | VBool (b : bool)
  | VInt (z : Z)
  | VFloat (q : Q)
  | VStr (s : string)
  | VList (l : list pyval)
  | VDict (d : list (string * pyval)).

(** Truth value testing ([if x:], [not x]). *)
Definition truthy (v : pyval) : bool :=
  match v with
  | VNone => false
  | VBool b => b
  | VInt z => negb (Z.eqb z 0)
  | VFloat q => negb (Qeq_bool q 0)
  | VStr s => negb (String.eqb s "")
  | VList l => negb (Nat.eqb (length l) 0)
  | VDict d => negb (Nat.eqb (length d) 0)
  end.

(** [isinstance(v, list)] and [isinstance(v, dict)]. *)
Definition is_list (v : pyval) : bool :=
  match v with VList _ => true | _ => false end.
Definition is_dict (v : pyval) : bool :=
  match v with VDict _ => true | _ => false end.

(** [d.get(k)] on the association list of a dictionary. *)
Fixpoint assoc (k : string) (d : list (string * pyval)) : option pyval :=
  match d with
  | [] => None
  | (k', v) :: d' => if String.eqb k k' then Some v else assoc k d'
  end.

(** [k in d] *)
Definition has_key (k : string) (d : list (string * pyval)) : bool :=
  match assoc k d with Some _ => true | None => false end.

(** [d.get(k, default)] *)
Definition get_default (k : string) (default : pyval)
    (d : list (string * pyval)) : pyval :=
  match assoc k d with Some v => v | None => default end.

(** Hashable values: lists and dictionaries are not, [x in d] raises
    [TypeError] on them. *)
Definition hashable (v : pyval) : bool :=
  match v with VList _ | VDict _ => false | _ => true end.

End Py.

(** ** The scheduler's trigger loop *)

Module Scheduler.

(** The fields of [Scheduler] the trigger loop reads. *)
Record Scheduler : Type := {
  enabled : bool;
  run_minutes : list Z;
  running : bool;
  paused : bool
}.

(** The wall clock is counted in whole seconds; [datetime.now().minute]. *)
Definition minute (now : Z) : Z := (now / 60) mod 60.

(** [x in self.run_minutes] *)
Definition in_minutes (x : Z) (l : list Z) : bool := existsb (Z.eqb x) l.

(** The test of the loop body: the current minute is a trigger minute and
    the minute before it is not. *)
Definition should_run (s : Scheduler) (now : Z) : bool :=
  let current_minute := minute now in
  if in_minutes current_minute (run_minutes s) then
    let previous_minute := (current_minute - 1) mod 60 in
    negb (in_minutes previous_minute (run_minutes s))
  else false.

(** [_scheduler_task]: the list of clock readings at which
    [run_automation] is called.  [fuel] bounds the number of loop
    iterations observed, [run_cost] is the time one call of
    [run_automation] takes (it sleeps [thread_delay] after each batch it
    starts), and the flags stay as they are in [s] for the whole trace. *)
Fixpoint _scheduler_task (fuel : nat) (s : Scheduler) (run_cost : Z)
    (now : Z) : list Z :=
  match fuel with
  | O => []
  | S fuel' =>
      if negb (running s) then []
      else if paused s then _scheduler_task fuel' s run_cost (now + 1)
      else if should_run s now then
        now :: _scheduler_task fuel' s run_cost (now + run_cost + 10)
      else _scheduler_task fuel' s run_cost (now + 10)
  end.

(** The runs initiated inside the 60-second window that starts at [start]. *)
Definition runs_in_window (start : Z) (runs : list Z) : list Z :=
  filter (fun t => start <= t < start + 60) runs.

(** The default schedule of [__init__], running and not paused. *)
Definition default_scheduler : Scheduler :=
  {| enabled := true; run_minutes := [5; 25; 45];
     running := true; paused := false |}.

(** *** Start, stop, pause, resume *)

(** The scheduler with what its lifecycle operations touch besides the
    flags: the executor it creates, its trigger task, its open batch
    tasks. *)
Record Lifecycle : Type := {
  flags : Scheduler;
  executor_made : bool;
  scheduler_task : bool;
  running_tasks : list nat
}.

Definition set_flags (r p : bool) (s : Scheduler) : Scheduler :=
  {| enabled := enabled s; run_minutes := run_minutes s;
     running := r; paused := p |}.

(** [start] *)
Definition start (l : Lifecycle) : Lifecycle :=
  if running (flags l) then l
  else
    {| flags := set_flags true false (flags l);
       executor_made := true;
       scheduler_task := if enabled (flags l) then true else scheduler_task l;
       running_tasks := running_tasks l |}.

(** [stop] *)
Definition stop (l : Lifecycle) : Lifecycle :=
  if negb (running (flags l)) then l
  else
    {| flags := set_flags false false (flags l);
       executor_made := executor_made l;
       scheduler_task := false;
       running_tasks := [] |}.

(** [pause] *)
Definition pause (l : Lifecycle) : Lifecycle :=
  if negb (running (flags l)) then l
  else if paused (flags l) then l
  else
    {| flags := set_flags (running (flags l)) true (flags l);
       executor_made := executor_made l;
       scheduler_task := scheduler_task l;
       running_tasks := running_tasks l |}.

(** [resume] *)
Definition resume (l : Lifecycle) : Lifecycle :=
  if negb (running (flags l)) then l
  else if negb (paused (flags l)) then l
  else
    {| flags := set_flags (running (flags l)) false (flags l);
       executor_made := executor_made l;
       scheduler_task := scheduler_task l;
       running_tasks := running_tasks l |}.

(** The state [__init__] leaves. *)
Definition initial (enabled : bool) (run_minutes : list Z) : Lifecycle :=
  {| flags := {| enabled := enabled; run_minutes := run_minutes;
                 running := false; paused := false |};
     executor_made := false;
     scheduler_task := false;
     running_tasks := [] |}.

(** The four operations, called one after the other. *)
Inductive operation : Type :=
  | Start
  | Stop
  | Pause
  | Resume.

Definition apply_operation (l : Lifecycle) (o : operation) : Lifecycle :=
  match o with
  | Start => start l
  | Stop => stop l
  | Pause => pause l
  | Resume => resume l
  end.

(** A schedule of all sixty minutes, running and not paused. *)
Definition every_minute : Scheduler :=
  {| enabled := true; run_minutes := map Z.of_nat (seq 0 60);
     running := true; paused := false |}.

End Scheduler.

(** ** Paths *)

Module OsPath.

(** [os.path.join] of two components on a POSIX host. *)
Definition join (a b : string) : string :=
  match b with
  | String "/" _ => b
  | _ =>
      if String.eqb a "" then b
      else if String.eqb (substring (String.length a - 1) 1 a) "/" then a +:+ b
      else a +:+ "/" +:+ b
  end.

End OsPath.

(** ** The bridge client: taking a screenshot *)

Module ADBManager.

(** What [take_screenshot] asks of the adb executable for one device.
    [shell_command] and [pull_file] wrap [execute_command], which retries
    and catches its own errors; one entry stands for one such call. *)
Inductive command : Type :=
  | Shell (device_id cmd : string)
  | Pull (device_id remote_path local_path : string).

(** The files on the device and on the host, and the calls issued so far. *)
Record World : Type := {
  remote_files : gset string;
  local_files : gset string;
  issued : list command
}.

(** How the outside world answers during one call of [take_screenshot]. *)
Record Env : Type := {
  makedirs_ok : bool;     (* [os.makedirs] does not raise *)
  screencap_ok : bool;    (* [screencap -p] exits with 0 *)
  pull_ok : bool;         (* [adb pull] exits with 0 *)
  rm_ok : bool            (* [rm] exits with 0 *)
}.

(** [s.replace(old, new)] for single characters. *)
Fixpoint replace_char (old new : ascii) (s : string) : string :=
  match s with
  | EmptyString => EmptyString
  | String c s' =>
      String (if Ascii.eqb c old then new else c) (replace_char old new s')
  end.

Definition screencap_cmd (remote_path : string) : string :=
  "screencap -p " +:+ remote_path.
Definition rm_cmd (remote_path : string) : string :=
  "rm " +:+ remote_path.

(** [shell_command(device_id, "screencap -p ...")] *)
Definition shell_screencap (env : Env) (device_id remote_path : string)
    (w : World) : bool * World :=
  (screencap_ok env,
   {| remote_files :=
        if screencap_ok env then {[ remote_path ]} ∪ remote_files w
        else remote_files w;
      local_files := local_files w;
      issued := issued w ++ [Shell device_id (screencap_cmd remote_path)] |}).

(** [pull_file(device_id, remote_path, local_path)] *)
Definition pull_file (env : Env) (device_id remote_path local_path : string)
    (w : World) : bool * World :=
  (pull_ok env,
   {| remote_files := remote_files w;
      local_files :=
        if pull_ok env then {[ local_path ]} ∪ local_files w
        else local_files w;
      issued := issued w ++ [Pull device_id remote_path local_path] |}).

(** [shell_command(device_id, "rm ...")] *)
Definition shell_rm (env : Env) (device_id remote_path : string)
    (w : World) : bool * World :=
  (rm_ok env,
   {| remote_files :=
        if rm_ok env then remote_files w ∖ {[ remote_path ]}
        else remote_files w;
      local_files := local_files w;
      issued := issued w ++ [Shell device_id (rm_cmd remote_path)] |}).

(** The temporary path on the device, from the second clock reading. *)
Definition remote_path_of (now : Z) : string :=
  "/sdcard/screenshot_" +:+ pretty now +:+ ".png".

(** The generated host path, from the first clock reading. *)
Definition default_local_path (cwd device_id : string) (now : Z) : string :=
  let output_dir := OsPath.join (OsPath.join cwd "screenshots") "output" in
  let safe_device_id := replace_char "." "_" (replace_char ":" "_" device_id) in
  OsPath.join output_dir
    ("screenshot_" +:+ safe_device_id +:+ "_" +:+ pretty now +:+ ".png").

(** [take_screenshot]; [now1] and [now2] are the two readings of
    [int(time.time())]. *)
Definition take_screenshot (env : Env) (cwd : string) (now1 now2 : Z)
    (device_id : string) (local_path : option string) (w : World)
    : option string * World :=
  let generate :=
    match local_path with
    | None => true
    | Some p => String.eqb p ""
    end in
  if generate && negb (makedirs_ok env) then (None, w)   (* except Exception *)
  else
    let local_path :=
      match local_path with
      | Some p => if String.eqb p "" then default_local_path cwd device_id now1 else p
      | None => default_local_path cwd device_id now1
      end in
    let remote_path := remote_path_of now2 in
    let '(success, w) := shell_screencap env device_id remote_path w in
    if negb success then (None, w)
    else
      let '(success, w) := pull_file env device_id remote_path local_path w in
      if negb success then (None, w)
      else
        let '(_, w) := shell_rm env device_id remote_path w in
        (Some local_path, w).

(** Whether a call removing [remote_path] was issued. *)
Definition rm_issued (device_id remote_path : string) (w : World) : bool :=
  existsb (fun c =>
    match c with
    | Shell d cmd => String.eqb d device_id && String.eqb cmd (rm_cmd remote_path)
    | Pull _ _ _ => false
    end) (issued w).

Definition empty_world : World :=
  {| remote_files := ∅; local_files := ∅; issued := [] |}.

(** *** Strings of commands and of their output *)

(** [needle in s] for strings *)
Fixpoint infix (needle s : string) : bool :=
  String.prefix needle s
  || match s with
     | EmptyString => false
     | String _ s' => infix needle s'
     end.

(** [s.replace(old, new)] for a one-character [old] *)
Fixpoint replace_char_with (old : ascii) (new : string) (s : string) : string :=
  match s with
  | EmptyString => EmptyString
  | String c s' =>
      (if Ascii.eqb c old then new else String c EmptyString)
      +:+ replace_char_with old new s'
  end.

(** The double quote character *)
Definition dquote : ascii := ascii_of_nat 34.

(** *** Running one adb command *)

(** How one attempt of [execute_command] ends: the process exits within the
    time allowed, the wait times out and the process is killed, or starting
    it raises. *)
Inductive attempt : Type :=
  | Exited (returncode : Z) (stdout_text stderr_text : string)
  | TimedOut
  | SpawnFailed (msg : string).

(** ['device not found' in stderr_text or 'device \'' in stderr_text and
    '\' not found' in stderr_text] *)
Definition device_not_found (stderr_text : string) : bool :=
  infix "device not found" stderr_text
  || infix "device '" stderr_text && infix "' not found" stderr_text.

(** Whether an attempt ends the loop of [execute_command]: an exit code of
    0, or an error output telling that the device is not found. *)
Definition decisive (a : attempt) : bool :=
  match a with
  | Exited returncode _ stderr_text =>
      (returncode =? 0) || device_not_found stderr_text
  | _ => false
  end.

(** What a decisive attempt makes [execute_command] return. *)
Definition verdict (a : attempt) : bool * string * string :=
  match a with
  | Exited returncode stdout_text stderr_text =>
      (returncode =? 0, stdout_text, stderr_text)
  | _ => (false, "", "")
  end.

(** The loop [for attempt in range(retries)] from attempt [i] on, with
    [fuel] attempts left: what it returns, if it returns, and the number of
    attempts made in all.  [answers i] is how attempt [i] ends. *)
Fixpoint attempt_loop (fuel : nat) (i : nat) (answers : nat -> attempt)
    : option (bool * string * string) * nat :=
  match fuel with
  | O => (None, i)
  | S fuel' =>
      match answers i with
      | Exited returncode stdout_text stderr_text =>
          if returncode =? 0 then
            (Some (true, stdout_text, stderr_text), S i)
          else if device_not_found stderr_text then
            (Some (false, stdout_text, stderr_text), S i)
          else attempt_loop fuel' (S i) answers
      | TimedOut => attempt_loop fuel' (S i) answers
      | SpawnFailed _ => attempt_loop fuel' (S i) answers
      end
  end.

(** [execute_command]: the result and the number of attempts made.
    [max_retries] is the configured default of [retries]. *)
Definition execute_command (max_retries : Z) (retries : option Z)
    (answers : nat -> attempt) : (bool * string * string) * nat :=
  let retries := match retries with Some r => r | None => max_retries end in
  match attempt_loop (Z.to_nat retries) 0 answers with
  | (Some r, n) => (r, n)
  | (None, n) =>
      ((false, "",
        "Не удалось выполнить команду после " +:+ pretty retries +:+ " попыток"),
       n)
  end.

(** *** Text input *)

(** [text.replace(" ", "%s").replace("'", "\\'").replace('"', '\\"')] *)
Definition escape_text (text : string) : string :=
  replace_char_with dquote (String "\" (String dquote EmptyString))
    (replace_char_with "'" "\'"
       (replace_char_with " " "%s" text)).

(** The shell command of [input_text] *)
Definition input_text_command (text : string) : string :=
  "input text " +:+ String dquote (escape_text text)
  +:+ String dquote EmptyString.

(** Whether [take_screenshot] has to make up the host path. *)
Definition generates_path (local_path : option string) : bool :=
  match local_path with
  | None => true
  | Some p => String.eqb p ""
  end.

(** A command that times out once and then exits with code 0. *)
Definition second_try : nat -> attempt :=
  fun i => if Nat.eqb i 0 then TimedOut else Exited 0 "done" "".

End ADBManager.

(** ** The image matcher: all occurrences of a template *)

Module ImageProcessor.

(** The score map [cv2.matchTemplate] returns: rows of scores.  Scores are
    compared and stored, never computed with, so a rational stands for the
    float. *)
Abbreviation ScoreMap := (list (list Q)).

(** A found template [(x, y, w, h, score)]. *)
Definition Match : Type := (Z * Z * Z * Z * Q)%type.

(** [a < b] on scores *)
Definition Qlt_bool (a b : Q) : bool := negb (Qle_bool b a).

(** [cv2.minMaxLoc]: the maximum and its location [(x, y)], the first one
    in row-major order when the maximum is attained more than once; an
    empty map is an error. *)
Fixpoint scan_row (y x : Z) (row : list Q) (best : option (Q * (Z * Z)))
    : option (Q * (Z * Z)) :=
  match row with
  | [] => best
  | v :: row' =>
      scan_row y (x + 1) row'
        (match best with
         | None => Some (v, (x, y))
         | Some (b, _) => if Qlt_bool b v then Some (v, (x, y)) else best
         end)
  end.

Fixpoint scan_rows (y : Z) (m : ScoreMap) (best : option (Q * (Z * Z)))
    : option (Q * (Z * Z)) :=
  match m with
  | [] => best
  | row :: m' => scan_rows (y + 1) m' (scan_row y 0 row best)
  end.

Definition minMaxLoc (m : ScoreMap) : option (Q * (Z * Z)) :=
  scan_rows 0 m None.

(** A bound of a Python slice on an axis of length [len]: a negative bound
    counts from the end, and every bound is clipped to the axis. *)
Definition slice_bound (len i : Z) : Z :=
  if i <? 0 then Z.max (i + len) 0 else Z.min i len.

(** Whether index [i] lies in [start:stop] on an axis of length [len]. *)
Definition in_slice (len start stop i : Z) : bool :=
  (slice_bound len start <=? i) && (i <? slice_bound len stop).

(** [result[r0:r1, c0:c1] = 0] *)
Definition zero_slice (result : ScoreMap) (r0 r1 c0 c1 : Z) : ScoreMap :=
  imap (fun r row =>
    if in_slice (Z.of_nat (length result)) r0 r1 (Z.of_nat r) then
      imap (fun c v =>
        if in_slice (Z.of_nat (length row)) c0 c1 (Z.of_nat c) then 0%Q else v)
        row
    else row) result.

(** The statement that excludes a found region from the further search:
    [result[y-h//2:y+h//2+h, x-w//2:x+w//2+w] = 0]. *)
Definition suppress (result : ScoreMap) (x y w h : Z) : ScoreMap :=
  zero_slice result (y - h / 2) (y + h / 2 + h) (x - w / 2) (x + w / 2 + w).

(** The [while count < max_results] loop; [fuel] is [max_results - count].
    [Raised] is an exception escaping the loop. *)
Fixpoint search_loop (fuel : nat) (result : ScoreMap) (w h : Z)
    (match_threshold : Q) (found_templates : list Match)
    : outcome (list Match) :=
  match fuel with
  | O => Returned found_templates
  | S fuel' =>
      match minMaxLoc result with
      | None => Raised "minMaxLoc: empty array"
      | Some (max_val, (x, y)) =>
          if Qlt_bool max_val match_threshold then Returned found_templates
          else
            search_loop fuel' (suppress result x y w h) w h match_threshold
              (found_templates ++ [(x, y, w, h, max_val)])
      end
  end.

(** [find_all_templates].  [template] is the shape [(w, h)] of the loaded
    template, [None] when it cannot be loaded; [result] is what
    [cv2.matchTemplate] answers for the image and the template;
    [self_threshold] is the configured default. *)
Definition find_all_templates (self_threshold : Q)
    (template : option (Z * Z)) (result : outcome ScoreMap)
    (threshold : option Q) (max_results : Z) : list Match :=
  match template with
  | None => []
  | Some (w, h) =>
      let match_threshold :=
        match threshold with Some t => t | None => self_threshold end in
      match result with
      | Raised _ => []
      | Returned result =>
          match search_loop (Z.to_nat max_results) result w h
                  match_threshold [] with
          | Returned found_templates => found_templates
          | Raised _ => []
          end
      end
  end.

(** The cell at row [r], column [c]. *)
Definition cell (m : ScoreMap) (r c : nat) : option Q :=
  match m !! r with
  | Some row => row !! c
  | None => None
  end.

(** [find_template], with the arguments of [find_all_templates]. *)
Definition find_template (self_threshold : Q)
    (template : option (Z * Z)) (result : outcome ScoreMap)
    (threshold : option Q) : option Match :=
  match template with
  | None => None
  | Some (w, h) =>
      let match_threshold :=
        match threshold with Some t => t | None => self_threshold end in
      match result with
      | Raised _ => None
      | Returned result =>
          match minMaxLoc result with
          | None => None
          | Some (max_val, (x, y)) =>
              if Qlt_bool max_val match_threshold then None
              else Some (x, y, w, h, max_val)
          end
      end
  end.

(** [get_template_center] *)
Definition get_template_center (template_result : Match) : Z * Z :=
  let '(x, y, w, h, _) := template_result in
  (x + w / 2, y + h / 2).

(** [image.shape[:2]] of an image given as its rows of pixels. *)
Definition shape {A : Type} (image : list (list A)) : Z * Z :=
  (Z.of_nat (length image),
   match image with
   | row :: _ => Z.of_nat (length row)
   | [] => 0
   end).

(** The corner and the size [get_roi] cuts at, after its adjustment to the
    image. *)
Definition roi_window {A : Type} (image : list (list A))
    (x y width height : Z) : Z * Z * Z * Z :=
  let '(img_height, img_width) := shape image in
  let x := Z.max 0 (Z.min x (img_width - 1)) in
  let y := Z.max 0 (Z.min y (img_height - 1)) in
  let width := Z.min width (img_width - x) in
  let height := Z.min height (img_height - y) in
  (x, y, width, height).

(** [l[start:stop]] *)
Definition slice {A : Type} (l : list A) (start stop : Z) : list A :=
  let len := Z.of_nat (length l) in
  let lo := slice_bound len start in
  let hi := slice_bound len stop in
  take (Z.to_nat (hi - lo)) (drop (Z.to_nat lo) l).

(** [get_roi]: [image[y:y+height, x:x+width]] at the adjusted window. *)
Definition get_roi {A : Type} (image : list (list A))
    (x y width height : Z) : list (list A) :=
  let '(x, y, width, height) := roi_window image x y width height in
  map (fun row => slice row x (x + width)) (slice image y (y + height)).

(** An image all rows of which have [img_width] pixels. *)
Definition rectangular {A : Type} (img_width : Z) (image : list (list A))
    : Prop :=
  Forall (fun row => Z.of_nat (length row) = img_width) image.

(** A map with one cell at least. *)
Definition has_cell (m : ScoreMap) : Prop :=
  exists row, row ∈ m /\ row <> [].

(** *** The suppression as the specification words it

    "zero out a w x h region centered on the match": rows
    [y - h/2 .. y + h/2] and columns [x - w/2 .. x + w/2], bounds
    included, clipped to the map. *)
Definition in_centered_region (x y w h : Z) (r c : Z) : bool :=
  (y - h / 2 <=? r) && (r <=? y + h / 2) &&
  (x - w / 2 <=? c) && (c <=? x + w / 2).

Definition suppress_centered (result : ScoreMap) (x y w h : Z) : ScoreMap :=
  imap (fun r row =>
    imap (fun c v =>
      if in_centered_region x y w h (Z.of_nat r) (Z.of_nat c) then 0%Q else v)
      row) result.

Fixpoint search_loop_centered (fuel : nat) (result : ScoreMap) (w h : Z)
    (match_threshold : Q) (found_templates : list Match)
    : outcome (list Match) :=
  match fuel with
  | O => Returned found_templates
  | S fuel' =>
      match minMaxLoc result with
      | None => Raised "minMaxLoc: empty array"
      | Some (max_val, (x, y)) =>
          if Qlt_bool max_val match_threshold then Returned found_templates
          else
            search_loop_centered fuel' (suppress_centered result x y w h)
              w h match_threshold
              (found_templates ++ [(x, y, w, h, max_val)])
      end
  end.

(** The region the code zeroes when the slice starts are not negative. *)
Definition in_code_region (x y w h : Z) (r c : Z) : bool :=
  (y - h / 2 <=? r) && (r <? y + h / 2 + h) &&
  (x - w / 2 <=? c) && (c <? x + w / 2 + w).

(** A 6 x 6 score map with a peak of 0.9 at [(2, 2)] and one of 0.8 at
    [(4, 4)]. *)
Definition two_peaks : ScoreMap :=
  let z := 0%Q in
  [ [z; z; z; z; z; z];
    [z; z; z; z; z; z];
    [z; z; 9 # 10; z; z; z];
    [z; z; z; z; z; z];
    [z; z; z; z; 8 # 10; z];
    [z; z; z; z; z; z] ].

End ImageProcessor.

(** ** Python ranges *)

Module PyList.

(** [len(range(0, stop, step))] for a positive [step] *)
Definition range_count (stop step : Z) : nat :=
  Z.to_nat ((stop + step - 1) / step).

End PyList.

(** ** Strings as the roster parser uses them *)

Module Str.

(** Strings are the UTF-8 bytes of the text.  [str.isspace] characters:
    one byte for U+0009..U+000D, U+001C..U+0020; two bytes for U+0085 and
    U+00A0; three bytes for U+1680, U+2000..U+200A, U+2028, U+2029,
    U+202F, U+205F and U+3000. *)
Definition is_ws1 (a : ascii) : bool :=
  let n := nat_of_ascii a in
  ((9 <=? n) && (n <=? 13) || (28 <=? n) && (n <=? 32))%nat.

Definition is_ws2 (a b : ascii) : bool :=
  let m := nat_of_ascii a in
  let n := nat_of_ascii b in
  ((m =? 194) && ((n =? 133) || (n =? 160)))%nat.

Definition is_ws3 (a b c : ascii) : bool :=
  let l := nat_of_ascii a in
  let m := nat_of_ascii b in
  let n := nat_of_ascii c in
  ((l =? 225) && (m =? 154) && (n =? 128)
   || (l =? 226) && (m =? 128)
      && ((128 <=? n) && (n <=? 138) || (n =? 168) || (n =? 169) || (n =? 175))
   || (l =? 226) && (m =? 129) && (n =? 159)
   || (l =? 227) && (m =? 128) && (n =? 128))%nat.

(** [s.lstrip()] *)
Fixpoint lstrip (s : string) : string :=
  match s with
  | EmptyString => s
  | String a s1 =>
      if is_ws1 a then lstrip s1
      else
        match s1 with
        | EmptyString => s
        | String b s2 =>
            if is_ws2 a b then lstrip s2
            else
              match s2 with
              | EmptyString => s
              | String c s3 => if is_ws3 a b c then lstrip s3 else s
              end
        end
  end.

(** The same scan on the reversed string, for [s.rstrip()]. *)
Fixpoint lstrip_rev (s : string) : string :=
  match s with
  | EmptyString => s
  | String a s1 =>
      if is_ws1 a then lstrip_rev s1
      else
        match s1 with
        | EmptyString => s
        | String b s2 =>
            if is_ws2 b a then lstrip_rev s2
            else
              match s2 with
              | EmptyString => s
              | String c s3 => if is_ws3 c b a then lstrip_rev s3 else s
              end
        end
  end.

Definition rstrip (s : string) : string :=
  String.rev (lstrip_rev (String.rev s)).

(** [s.strip()] *)
Definition strip (s : string) : string := rstrip (lstrip s).

(** [s.startswith(c)] for a one-character prefix *)
Definition startswith (c : ascii) (s : string) : bool :=
  match s with
  | String a _ => Ascii.eqb a c
  | EmptyString => false
  end.

(** [s.split(sep)] for a one-character separator *)
Fixpoint split (sep : ascii) (s : string) : list string :=
  match s with
  | EmptyString => [EmptyString]
  | String c s' =>
      if Ascii.eqb c sep then EmptyString :: split sep s'
      else
        match split sep s' with
        | p :: ps => String c p :: ps
        | [] => [String c EmptyString]
        end
  end.

(** [c in s] *)
Fixpoint contains (c : ascii) (s : string) : bool :=
  match s with
  | EmptyString => false
  | String a s' => Ascii.eqb a c || contains c s'
  end.

(** Truth value of an optional string: [None] and [""] are false. *)
Definition truthy_opt (o : option string) : bool :=
  match o with
  | Some s => negb (String.eqb s "")
  | None => false
  end.

(** [a or b] where [a] is an optional string *)
Definition or_default (a : option string) (b : string) : string :=
  match a with
  | Some s => if String.eqb s "" then b else s
  | None => b
  end.

End Str.

(** ** The device manager *)

Module DeviceManager.
Import Py.

(** One entry of [self.devices]. *)
Record Device : Type := {
  id : string;
  name : string;
  ip : string;
  port : string;
  connected : bool;
  status : string;
  last_connection_attempt : Q;      (* a reading of [time.time()] *)
  connection_attempts : Z;
  current_action : pyval;           (* [None] or the label of the action *)
  info : gmap string string
}.

(** The fields of the manager the operations read or write. *)
Record DeviceManager : Type := {
  auto_reconnect : bool;
  status_check_interval : Z;
  devices : gmap string Device;
  device_loggers : gset string;     (* the ids a logger exists for *)
  status_check_started : bool       (* the background task was started *)
}.

(** The [adb_manager] object as the device manager sees it: what each of
    its methods answers. *)
Record AdbManager : Type := {
  adb_get_devices : outcome (list (string * string));
  adb_connect_device : string -> outcome bool;
  adb_disconnect_device : string -> outcome bool;
  adb_get_device_info : string -> outcome (gmap string string);
  adb_take_screenshot : string -> outcome (option string);
  adb_execute_command : string -> list string -> outcome (bool * string * string);
  adb_restart_app : string -> string -> outcome bool;
  adb_input_tap : string -> Z -> Z -> outcome bool;
  adb_input_text : string -> string -> outcome bool
}.

(** *** Field updates *)

Definition set_devices (ds : gmap string Device) (dm : DeviceManager)
    : DeviceManager :=
  {| auto_reconnect := auto_reconnect dm;
     status_check_interval := status_check_interval dm;
     devices := ds;
     device_loggers := device_loggers dm;
     status_check_started := status_check_started dm |}.

Definition set_attempt (now : Q) (d : Device) : Device :=
  {| id := id d; name := name d; ip := ip d; port := port d;
     connected := connected d; status := status d;
     last_connection_attempt := now;
     connection_attempts := connection_attempts d + 1;
     current_action := current_action d; info := info d |}.

Definition set_connection (c : bool) (st : string) (d : Device) : Device :=
  {| id := id d; name := name d; ip := ip d; port := port d;
     connected := c; status := st;
     last_connection_attempt := last_connection_attempt d;
     connection_attempts := connection_attempts d;
     current_action := current_action d; info := info d |}.

Definition set_info (i : gmap string string) (d : Device) : Device :=
  {| id := id d; name := name d; ip := ip d; port := port d;
     connected := connected d; status := status d;
     last_connection_attempt := last_connection_attempt d;
     connection_attempts := connection_attempts d;
     current_action := current_action d; info := i |}.

Definition reset_attempts (d : Device) : Device :=
  {| id := id d; name := name d; ip := ip d; port := port d;
     connected := connected d; status := status d;
     last_connection_attempt := last_connection_attempt d;
     connection_attempts := 0;
     current_action := current_action d; info := info d |}.

Definition set_action (a : pyval) (d : Device) : Device :=
  {| id := id d; name := name d; ip := ip d; port := port d;
     connected := connected d; status := status d;
     last_connection_attempt := last_connection_attempt d;
     connection_attempts := connection_attempts d;
     current_action := a; info := info d |}.

(** [self.devices[device_id][...] = ...] on an entry that exists *)
Definition update_device (device_id : string) (f : Device -> Device)
    (dm : DeviceManager) : DeviceManager :=
  set_devices (alter f device_id (devices dm)) dm.

(** [device_id in self.devices] *)
Definition known (device_id : string) (dm : DeviceManager) : bool :=
  bool_decide (is_Some (devices dm !! device_id)).

(** [self.devices[device_id]['connected']] *)
Definition is_connected (device_id : string) (dm : DeviceManager) : bool :=
  match devices dm !! device_id with
  | Some d => connected d
  | None => false
  end.

(** The action tag of a device, [None] when the device is unknown. *)
Definition action_of (device_id : string) (dm : DeviceManager) : pyval :=
  match devices dm !! device_id with
  | Some d => current_action d
  | None => VNone
  end.

(** *** Loading the roster *)

Definition new_device (device_id name ip port : string) : Device :=
  {| id := device_id; name := name; ip := ip; port := port;
     connected := false;
     status := "Не подключено";
     last_connection_attempt := 0;
     connection_attempts := 0;
     current_action := VNone;
     info := ∅ |}.

(** The body of [for line in lines]. *)
Definition load_line (acc : gmap string Device * gset string) (line : string)
    : gmap string Device * gset string :=
  let line := Str.strip line in
  if String.eqb line "" || Str.startswith "#" line then acc
  else
    match Str.split ":" line with
    | ip :: port :: rest =>
        let device_id := ip +:+ ":" +:+ port in
        let name :=
          match rest with
          | n :: _ => n
          | [] => "Устройство " +:+ device_id
          end in
        (<[device_id := new_device device_id name ip port]> (fst acc),
         {[ device_id ]} ∪ snd acc)
    | _ => acc
    end.

(** The invariant of the loop: every id in the map has a colon in it. *)
Definition keys_have_colon (ds : gmap string Device) : Prop :=
  forall device_id, is_Some (ds !! device_id) ->
                    Str.contains ":" device_id = true.

(** [load_devices].  [file] is [None] when the roster file does not exist,
    [Some (Raised _)] when reading it fails, and the lines read
    otherwise. *)
Definition load_devices (file : option (outcome (list string)))
    (dm : DeviceManager) : bool * DeviceManager :=
  match file with
  | None => (false, dm)
  | Some (Raised _) => (false, dm)
  | Some (Returned lines) =>
      let '(ds, loggers) := foldl load_line (∅, device_loggers dm) lines in
      (true,
       {| auto_reconnect := auto_reconnect dm;
          status_check_interval := status_check_interval dm;
          devices := ds;
          device_loggers := loggers;
          status_check_started :=
            if auto_reconnect dm && (0 <? status_check_interval dm) then true
            else status_check_started dm |})
  end.

(** *** The status sweep *)

(** [{device['id']: device['state'] for device in adb_devices}]: a later
    entry replaces an earlier one with the same id. *)
Definition device_states (adb_devices : list (string * string))
    : gmap string string :=
  list_to_map (reverse adb_devices).

Definition sweep_device (states : gmap string string) (device_id : string)
    (d : Device) : Device :=
  match states !! device_id with
  | Some state =>
      if String.eqb state "device" then
        reset_attempts (set_connection true "Подключено" d)
      else set_connection false ("Не готово (" +:+ state +:+ ")") d
  | None => set_connection false "Отключено" d
  end.

(** [update_device_statuses] *)
Definition update_device_statuses (adb : AdbManager) (dm : DeviceManager)
    : DeviceManager :=
  match adb_get_devices adb with
  | Raised _ => dm
  | Returned adb_devices =>
      set_devices
        (map_imap (fun device_id d =>
           Some (sweep_device (device_states adb_devices) device_id d))
           (devices dm))
        dm
  end.

(** *** Connecting and disconnecting *)

(** [connect_device]; [now] is the reading of [time.time()]. *)
Definition connect_device (adb : AdbManager) (now : Q) (device_id : string)
    (dm : DeviceManager) : bool * DeviceManager :=
  if negb (known device_id dm) then (false, dm)
  else
    let dm := update_device device_id (set_attempt now) dm in
    let failed :=
      update_device device_id (set_connection false "Ошибка подключения") dm in
    match adb_connect_device adb device_id with
    | Raised _ => (false, failed)
    | Returned success =>
        if success then
          match adb_get_device_info adb device_id with
          | Raised _ => (false, failed)
          | Returned device_info =>
              (true,
               update_device device_id
                 (fun d => set_info device_info
                             (set_connection true "Подключено" d)) dm)
          end
        else (false, failed)
    end.

(** [disconnect_device] *)
Definition disconnect_device (adb : AdbManager) (device_id : string)
    (dm : DeviceManager) : bool * DeviceManager :=
  if negb (known device_id dm) then (false, dm)
  else
    match adb_disconnect_device adb device_id with
    | Raised _ =>
        (false,
         update_device device_id (set_connection false "Ошибка отключения") dm)
    | Returned success =>
        (success,
         update_device device_id
           (fun d => set_action VNone (set_connection false "Отключено" d)) dm)
    end.

(** [device_connected] *)
Definition device_connected (device_id : string) (dm : DeviceManager) : bool :=
  if negb (known device_id dm) then false else is_connected device_id dm.

(** [get_device_logger]: creates the logger of a known device that has
    none. *)
Definition get_device_logger (device_id : string) (dm : DeviceManager)
    : DeviceManager :=
  if negb (known device_id dm) then dm
  else
    {| auto_reconnect := auto_reconnect dm;
       status_check_interval := status_check_interval dm;
       devices := devices dm;
       device_loggers := {[ device_id ]} ∪ device_loggers dm;
       status_check_started := status_check_started dm |}.

(** *** The action tag and the operations that set it *)

(** [update_device_action] *)
Definition update_device_action (device_id : string) (action : pyval)
    (dm : DeviceManager) : bool * DeviceManager :=
  if negb (known device_id dm) then (false, dm)
  else (true, update_device device_id (set_action action) dm).

(** [take_screenshot] *)
Definition take_screenshot (adb : AdbManager) (device_id : string)
    (dm : DeviceManager) : option string * DeviceManager :=
  if negb (known device_id dm) then (None, dm)
  else if negb (is_connected device_id dm) then (None, dm)
  else
    let dm := snd (update_device_action device_id
                     (VStr "Создание скриншота") dm) in
    match adb_take_screenshot adb device_id with
    | Raised _ => (None, snd (update_device_action device_id VNone dm))
    | Returned screenshot_path =>
        let dm := snd (update_device_action device_id VNone dm) in
        if Str.truthy_opt screenshot_path then (screenshot_path, dm)
        else (None, dm)
    end.

(** [execute_adb_command] *)
Definition execute_adb_command (adb : AdbManager) (device_id : string)
    (command : list string) (action_description : option string)
    (dm : DeviceManager) : (bool * string * string) * DeviceManager :=
  if negb (known device_id dm) then
    ((false, "", "Устройство не найдено в списке"), dm)
  else if negb (is_connected device_id dm) then
    ((false, "", "Устройство не подключено"), dm)
  else
    let tagged := Str.truthy_opt action_description in
    let label :=
      match action_description with Some s => VStr s | None => VNone end in
    let dm :=
      if tagged then snd (update_device_action device_id label dm) else dm in
    match adb_execute_command adb device_id command with
    | Raised msg =>
        ((false, "", msg),
         if tagged then snd (update_device_action device_id VNone dm) else dm)
    | Returned r =>
        (r,
         if tagged then snd (update_device_action device_id VNone dm) else dm)
    end.

(** [execute_shell_command] *)
Definition execute_shell_command (adb : AdbManager) (device_id : string)
    (command : string) (action_description : option string)
    (dm : DeviceManager) : (bool * string * string) * DeviceManager :=
  execute_adb_command adb device_id ["shell"; command] action_description dm.

(** [restart_app] *)
Definition restart_app (adb : AdbManager) (device_id package_name : string)
    (action_description : option string) (dm : DeviceManager)
    : bool * DeviceManager :=
  if negb (known device_id dm) then (false, dm)
  else if negb (is_connected device_id dm) then (false, dm)
  else
    let description :=
      Str.or_default action_description ("Перезапуск " +:+ package_name) in
    let dm := snd (update_device_action device_id (VStr description) dm) in
    match adb_restart_app adb device_id package_name with
    | Raised _ => (false, snd (update_device_action device_id VNone dm))
    | Returned success =>
        (success, snd (update_device_action device_id VNone dm))
    end.

(** [input_tap] *)
Definition input_tap (adb : AdbManager) (device_id : string) (x y : Z)
    (action_description : option string) (dm : DeviceManager)
    : bool * DeviceManager :=
  if negb (known device_id dm) then (false, dm)
  else if negb (is_connected device_id dm) then (false, dm)
  else
    let description :=
      Str.or_default action_description
        ("Нажатие (" +:+ pretty x +:+ ", " +:+ pretty y +:+ ")") in
    let dm := snd (update_device_action device_id (VStr description) dm) in
    match adb_input_tap adb device_id x y with
    | Raised _ => (false, snd (update_device_action device_id VNone dm))
    | Returned success =>
        (success, snd (update_device_action device_id VNone dm))
    end.

(** [input_text] *)
Definition input_text (adb : AdbManager) (device_id text : string)
    (action_description : option string) (dm : DeviceManager)
    : bool * DeviceManager :=
  if negb (known device_id dm) then (false, dm)
  else if negb (is_connected device_id dm) then (false, dm)
  else
    let description := Str.or_default action_description "Ввод текста" in
    let dm := snd (update_device_action device_id (VStr description) dm) in
    match adb_input_text adb device_id text with
    | Raised _ => (false, snd (update_device_action device_id VNone dm))
    | Returned success =>
        (success, snd (update_device_action device_id VNone dm))
    end.

(** *** Walking the roster

    [list(self.devices.keys())] lists the ids in the order of their first
    insertion.  The map of the model keeps no order, so the operations that
    walk the roster take that list, [device_ids], as an argument; likewise
    [batch_size] and [connect_timeout] stand for the fields of the same
    name.  [now] gives the reading of [time.time()] taken while the device
    of that id is handled. *)

(** The order of the keys as the loop of [load_devices] leaves it. *)
Definition load_order_line (order : list string) (line : string)
    : list string :=
  let line := Str.strip line in
  if String.eqb line "" || Str.startswith "#" line then order
  else
    match Str.split ":" line with
    | ip :: port :: _ =>
        let device_id := ip +:+ ":" +:+ port in
        if bool_decide (device_id ∈ order) then order
        else order ++ [device_id]
    | _ => order
    end.

Definition load_order (lines : list string) : list string :=
  foldl load_order_line [] lines.

(** The loop [for device_id in ...: if await self.connect_device(device_id):
    success_count += 1], shared by [connect_all] and [connect_batch]. *)
Definition connect_each (adb : AdbManager) (now : string -> Q)
    (device_ids : list string) (dm : DeviceManager) : Z * DeviceManager :=
  foldl (fun acc device_id =>
           let '(ok, dm') :=
             connect_device adb (now device_id) device_id (snd acc) in
           (if ok then fst acc + 1 else fst acc, dm'))
        (0, dm) device_ids.

(** [connect_all] *)
Definition connect_all (adb : AdbManager) (now : string -> Q)
    (device_ids : list string) (dm : DeviceManager) : Z * DeviceManager :=
  connect_each adb now device_ids dm.

(** [disconnect_all] *)
Definition disconnect_all (adb : AdbManager) (device_ids : list string)
    (dm : DeviceManager) : Z * DeviceManager :=
  foldl (fun acc device_id =>
           let '(ok, dm') := disconnect_device adb device_id (snd acc) in
           (if ok then fst acc + 1 else fst acc, dm'))
        (0, dm) device_ids.

(** [get_device_batches]; a batch size of zero makes [range] raise. *)
Definition get_device_batches (batch_size : Z) (device_ids : list string)
    : outcome (list (list string)) :=
  let total_devices := Z.of_nat (length device_ids) in
  if batch_size =? 0 then Raised "range() arg 3 must not be zero"
  else if batch_size <? 0 then Returned []
  else
    Returned
      (map (fun k =>
              let i := Z.of_nat k * batch_size in
              ImageProcessor.slice device_ids i (i + batch_size))
           (seq 0 (PyList.range_count total_devices batch_size))).

(** The devices of the batch [connect_batch] works on, [None] when the
    index is past the roster. *)
Definition batch_devices (batch_size : Z) (device_ids : list string)
    (batch_index : Z) : option (list string) :=
  let total_devices := Z.of_nat (length device_ids) in
  let start_index := batch_index * batch_size in
  let end_index := Z.min (start_index + batch_size) total_devices in
  if total_devices <=? start_index then None
  else Some (ImageProcessor.slice device_ids start_index end_index).

(** [connect_batch] *)
Definition connect_batch (adb : AdbManager) (now : string -> Q)
    (batch_size : Z) (device_ids : list string) (batch_index : Z)
    (dm : DeviceManager) : (Z * Z) * DeviceManager :=
  match batch_devices batch_size device_ids batch_index with
  | None => ((0, 0), dm)
  | Some batch =>
      let '(success_count, dm') := connect_each adb now batch dm in
      ((success_count, Z.of_nat (length batch)), dm')
  end.

(** [get_connected_devices] *)
Definition get_connected_devices (device_ids : list string)
    (dm : DeviceManager) : list string :=
  filter (fun device_id => is_connected device_id dm = true) device_ids.

(** [get_devices_count] *)
Definition get_devices_count (device_ids : list string) (dm : DeviceManager)
    : Z * Z :=
  (Z.of_nat (length device_ids),
   Z.of_nat (length (get_connected_devices device_ids dm))).

(** The test of [_reconnect_disconnected_devices]: the device is not
    connected and its last attempt is at least [connect_timeout] old. *)
Definition due_for_reconnect (connect_timeout : Q) (scan_time : string -> Q)
    (dm : DeviceManager) (device_id : string) : bool :=
  match devices dm !! device_id with
  | Some d =>
      negb (connected d)
      && Qle_bool connect_timeout
           (scan_time device_id - last_connection_attempt d)
  | None => false
  end.

(** [_reconnect_disconnected_devices] *)
Definition _reconnect_disconnected_devices (adb : AdbManager)
    (connect_timeout : Q) (scan_time now : string -> Q)
    (device_ids : list string) (dm : DeviceManager) : DeviceManager :=
  let disconnected_devices :=
    filter (fun device_id =>
              due_for_reconnect connect_timeout scan_time dm device_id = true)
           device_ids in
  foldl (fun dm device_id =>
           snd (connect_device adb (now device_id) device_id dm))
        dm disconnected_devices.

(** A record as [load_devices] creates it. *)
Definition freshly_loaded (device_id : string) (d : Device) : Prop :=
  id d = device_id /\ connected d = false /\ connection_attempts d = 0 /\
  current_action d = VNone /\ info d = ∅.

(** *** Sample data *)

Definition empty_manager : DeviceManager :=
  {| auto_reconnect := false; status_check_interval := 60;
     devices := ∅; device_loggers := ∅; status_check_started := false |}.

(** An adb manager every call of which succeeds. *)
Definition adb_all_ok : AdbManager :=
  {| adb_get_devices := Returned [];
     adb_connect_device := fun _ => Returned true;
     adb_disconnect_device := fun _ => Returned true;
     adb_get_device_info := fun device_id => Returned {[ "id" := device_id ]};
     adb_take_screenshot := fun _ => Returned (Some "shot.png");
     adb_execute_command := fun _ _ => Returned (true, "", "");
     adb_restart_app := fun _ _ => Returned true;
     adb_input_tap := fun _ _ _ => Returned true;
     adb_input_text := fun _ _ => Returned true |}.

(** An adb manager that lists [adb_devices] and succeeds in every other
    call. *)
Definition adb_listing (adb_devices : list (string * string)) : AdbManager :=
  {| adb_get_devices := Returned adb_devices;
     adb_connect_device := fun _ => Returned true;
     adb_disconnect_device := fun _ => Returned true;
     adb_get_device_info := fun device_id => Returned {[ "id" := device_id ]};
     adb_take_screenshot := fun _ => Returned (Some "shot.png");
     adb_execute_command := fun _ _ => Returned (true, "", "");
     adb_restart_app := fun _ _ => Returned true;
     adb_input_tap := fun _ _ _ => Returned true;
     adb_input_text := fun _ _ => Returned true |}.

(** The roster of three devices, none connected yet. *)
Definition three_devices : DeviceManager :=
  snd (load_devices
         (Some (Returned ["10.0.0.1:5555"; "10.0.0.2:5555"; "10.0.0.3:5555"]))
         empty_manager).

End DeviceManager.

(** ** Script modules *)

Module Script.
Import Py.

(** The arguments of a call into a script: the positional ones after the
    manager, the image processor and the logger are left out (the manager
    is the threaded state, the other two carry no modelled state), and the
    keyword ones. *)
Record call_args : Type := {
  positional : list pyval;
  keywords : list (string * pyval)
}.

(** A function of a script module.  It is called synchronously with the
    device manager at hand, answers a value or raises, and may leave the
    manager changed. *)
Definition callable : Type :=
  call_args -> DeviceManager.DeviceManager ->
  outcome pyval * DeviceManager.DeviceManager.

(** An attribute of a module object. *)
Inductive attr : Type :=
  | ACallable (f : callable)
  | AValue (v : pyval).

(** A module object: its attributes by name. *)
Abbreviation py_module := (gmap string attr).

(** [hasattr(module, name)] *)
Definition hasattr (m : py_module) (name : string) : bool :=
  bool_decide (is_Some (m !! name)).

(** Calling an attribute; a value that is not callable raises
    [TypeError]. *)
Definition call (a : attr) (args : call_args)
    (dm : DeviceManager.DeviceManager)
    : outcome pyval * DeviceManager.DeviceManager :=
  match a with
  | ACallable f => f args dm
  | AValue _ => (Raised "object is not callable", dm)
  end.

End Script.

(** ** The script store *)

Module ConfigLoader.
Import Py Script.

(** One entry of [self.loaded_configs]. *)
Record Entry : Type := {
  name : string;
  path : string;
  module : py_module;
  config : list (string * pyval)     (* [CONFIG], a dictionary *)
}.

Record ConfigLoader : Type := {
  configs_dir : string;
  loaded_configs : gmap string Entry
}.

(** What the file system and the import machinery answer for a path. *)
Inductive file_result : Type :=
  | Missing                        (* [os.path.exists] is false *)
  | NoSpec                         (* no module spec or no loader *)
  | ExecRaises (msg : string)      (* [exec_module] raises *)
  | Executed (m : py_module).      (* the module object after execution *)

Definition FileSystem : Type := string -> file_result.

Definition set_loaded (l : gmap string Entry) (cl : ConfigLoader)
    : ConfigLoader :=
  {| configs_dir := configs_dir cl; loaded_configs := l |}.

Definition config_path (cl : ConfigLoader) (config_name : string) : string :=
  OsPath.join (configs_dir cl) (config_name +:+ ".py").

(** [load_config] *)
Definition load_config (fs : FileSystem) (config_name : string)
    (cl : ConfigLoader) : option Entry * ConfigLoader :=
  match loaded_configs cl !! config_name with
  | Some e => (Some e, cl)
  | None =>
      let config_path := config_path cl config_name in
      match fs config_path with
      | Missing => (None, cl)
      | NoSpec => (None, cl)
      | ExecRaises _ => (None, cl)
      | Executed m =>
          match m !! "CONFIG" with
          | None => (None, cl)
          | Some (AValue (VDict config)) =>
              let e := {| name := config_name; path := config_path;
                          module := m; config := config |} in
              (Some e, set_loaded (<[config_name := e]> (loaded_configs cl)) cl)
          | Some _ => (None, cl)
          end
      end
  end.

(** [is_config_loaded] *)
Definition is_config_loaded (config_name : string) (cl : ConfigLoader) : bool :=
  bool_decide (is_Some (loaded_configs cl !! config_name)).

(** [get_loaded_config] *)
Definition get_loaded_config (config_name : string) (cl : ConfigLoader)
    : option Entry :=
  loaded_configs cl !! config_name.

(** The checks of [validate_config] on the [CONFIG] dictionary, in the
    order of the source: the required fields, the type of [actions], the
    type of [steps], the type of [enabled_steps].  The look at
    [next_config] only logs a warning. *)
Definition check_config (config : list (string * pyval)) : bool :=
  if negb (has_key "actions" config) then false
  else if negb (has_key "steps" config) then false
  else if negb (is_list (get_default "actions" VNone config)) then false
  else if negb (is_list (get_default "steps" VNone config)) then false
  else if has_key "enabled_steps" config
          && negb (is_dict (get_default "enabled_steps" VNone config))
       then false
  else true.

(** [validate_config] *)
Definition validate_config (fs : FileSystem) (config_name : string)
    (cl : ConfigLoader) : bool * ConfigLoader :=
  let '(loaded, cl) :=
    if is_config_loaded config_name cl then (true, cl)
    else
      match load_config fs config_name cl with
      | (Some _, cl') => (true, cl')
      | (None, cl') => (false, cl')
      end in
  if negb loaded then (false, cl)
  else
    match loaded_configs cl !! config_name with
    | Some e => (check_config (config e), cl)
    | None => (false, cl)                        (* [KeyError], caught *)
    end.

(** [reload_config] *)
Definition reload_config (fs : FileSystem) (config_name : string)
    (cl : ConfigLoader) : bool * ConfigLoader :=
  let cl := set_loaded (delete config_name (loaded_configs cl)) cl in
  match load_config fs config_name cl with
  | (Some _, cl') => (true, cl')
  | (None, cl') => (false, cl')
  end.

(** *** Validity as the specification words it

    "non-empty [steps], and an [enabled] mask (if present) must be a map
    of step-name to boolean". *)
Definition all_bool (d : list (string * pyval)) : bool :=
  forallb (fun kv => match snd kv with VBool _ => true | _ => false end) d.

Definition spec_valid (config : list (string * pyval)) : bool :=
  match assoc "steps" config with
  | Some (VList (_ :: _)) =>
      match assoc "enabled_steps" config with
      | None => true
      | Some (VDict mask) => all_bool mask
      | Some _ => false
      end
  | _ => false
  end.

(** *** Reading the cache *)

(** [load_all_configs]; [config_names] is what [scan_configs] found. *)
Definition load_all_configs (fs : FileSystem) (config_names : list string)
    (cl : ConfigLoader) : ConfigLoader :=
  foldl (fun cl config_name => snd (load_config fs config_name cl))
        (set_loaded ∅ cl) config_names.

(** [get_config_value] *)
Definition get_config_value (fs : FileSystem) (config_name key : string)
    (default : pyval) (cl : ConfigLoader) : pyval * ConfigLoader :=
  let '(loaded, cl) :=
    if is_config_loaded config_name cl then (true, cl)
    else
      match load_config fs config_name cl with
      | (Some _, cl') => (true, cl')
      | (None, cl') => (false, cl')
      end in
  if negb loaded then (default, cl)
  else
    match loaded_configs cl !! config_name with
    | Some e => (get_default key default (config e), cl)
    | None => (default, cl)                        (* [KeyError], caught *)
    end.

(** [get_config_steps] *)
Definition get_config_steps (fs : FileSystem) (config_name : string)
    (cl : ConfigLoader) : list pyval * ConfigLoader :=
  match get_config_value fs config_name "steps" (VList []) cl with
  | (VList steps, cl') => (steps, cl')
  | (_, cl') => ([], cl')
  end.

(** [get_config_actions] *)
Definition get_config_actions (fs : FileSystem) (config_name : string)
    (cl : ConfigLoader) : list pyval * ConfigLoader :=
  match get_config_value fs config_name "actions" (VList []) cl with
  | (VList actions, cl') => (actions, cl')
  | (_, cl') => ([], cl')
  end.

(** [get_config_enabled_steps] *)
Definition get_config_enabled_steps (fs : FileSystem) (config_name : string)
    (cl : ConfigLoader) : list (string * pyval) * ConfigLoader :=
  match get_config_value fs config_name "enabled_steps" (VDict []) cl with
  | (VDict enabled_steps, cl') => (enabled_steps, cl')
  | (_, cl') => ([], cl')
  end.

(** [get_config_function] *)
Definition get_config_function (fs : FileSystem)
    (config_name function_name : string) (cl : ConfigLoader)
    : option callable * ConfigLoader :=
  let '(loaded, cl) :=
    if is_config_loaded config_name cl then (true, cl)
    else
      match load_config fs config_name cl with
      | (Some _, cl') => (true, cl')
      | (None, cl') => (false, cl')
      end in
  if negb loaded then (None, cl)
  else
    match loaded_configs cl !! config_name with
    | Some e =>
        match module e !! function_name with
        | Some (ACallable f) => (Some f, cl)
        | _ => (None, cl)
        end
    | None => (None, cl)
    end.

(** The entry [load_config] makes of a module whose [CONFIG] is
    [config]. *)
Definition entry_of (cl : ConfigLoader) (config_name : string)
    (m : py_module) (config : list (string * pyval)) : Entry :=
  {| name := config_name; path := config_path cl config_name;
     module := m; config := config |}.

(** *** Sample data *)

Definition empty_loader : ConfigLoader :=
  {| configs_dir := "configs"; loaded_configs := ∅ |}.

(** A script module whose [CONFIG] is the dictionary [config]. *)
Definition module_of (config : list (string * pyval)) : py_module :=
  {[ "CONFIG" := AValue (VDict config) ]}.

(** A file system with one script file. *)
Definition one_file (file : string) (m : py_module) : FileSystem :=
  fun p => if String.eqb p file then Executed m else Missing.

(** A file system without any script file. *)
Definition no_files : FileSystem := fun _ => Missing.

End ConfigLoader.

(** ** The step executor *)

Module ActionExecutor.
Import Py Script.

(** The calls into the script module, in the order they are made. *)
Inductive event : Type :=
  | CalledInitialize
  | CalledHandler (action_name : string)
  | CalledFinalize (success : bool).

(** The executor with the two objects it holds; [calls] is the record of
    the calls made into script modules. *)
Record Executor : Type := {
  device_manager : DeviceManager.DeviceManager;
  config_loader : ConfigLoader.ConfigLoader;
  running : bool;
  paused : bool;
  running_configs : gmap string string;
  running_devices : gset string;
  calls : list event
}.

(** [await self.resume_event.wait()] returns, or the task is cancelled
    while it waits there.  A run suspends nowhere else: the handlers are
    called synchronously and the locks are never held across a
    suspension. *)
Inductive gate : Type :=
  | GateOpen
  | GateCancelled.

(** What the rest of the program does to a run: the script files, the
    value of [self.running] when step [i] tests it, and the pause gate of
    step [i]. *)
Record Env : Type := {
  fs : ConfigLoader.FileSystem;
  running_at : nat -> bool;
  gate_at : nat -> gate
}.

Definition set_dm (dm : DeviceManager.DeviceManager) (ex : Executor)
    : Executor :=
  {| device_manager := dm; config_loader := config_loader ex;
     running := running ex; paused := paused ex;
     running_configs := running_configs ex;
     running_devices := running_devices ex; calls := calls ex |}.

Definition set_cl (cl : ConfigLoader.ConfigLoader) (ex : Executor)
    : Executor :=
  {| device_manager := device_manager ex; config_loader := cl;
     running := running ex; paused := paused ex;
     running_configs := running_configs ex;
     running_devices := running_devices ex; calls := calls ex |}.

Definition set_running (b : bool) (ex : Executor) : Executor :=
  {| device_manager := device_manager ex; config_loader := config_loader ex;
     running := b; paused := paused ex;
     running_configs := running_configs ex;
     running_devices := running_devices ex; calls := calls ex |}.

Definition log_call (e : event) (ex : Executor) : Executor :=
  {| device_manager := device_manager ex; config_loader := config_loader ex;
     running := running ex; paused := paused ex;
     running_configs := running_configs ex;
     running_devices := running_devices ex; calls := calls ex ++ [e] |}.

(** The block under "setting the running flag" *)
Definition mark_running (device_id config_name : string) (ex : Executor)
    : Executor :=
  {| device_manager := device_manager ex; config_loader := config_loader ex;
     running := true; paused := paused ex;
     running_configs := <[device_id := config_name]> (running_configs ex);
     running_devices := {[ device_id ]} ∪ running_devices ex;
     calls := calls ex |}.

(** The block under "resetting the running flag" *)
Definition forget (device_id : string) (ex : Executor) : Executor :=
  {| device_manager := device_manager ex; config_loader := config_loader ex;
     running := running ex; paused := paused ex;
     running_configs := delete device_id (running_configs ex);
     running_devices := running_devices ex ∖ {[ device_id ]};
     calls := calls ex |}.

(** [await self.device_manager.update_device_action(device_id, action)] *)
Definition tag (device_id : string) (action : pyval) (ex : Executor)
    : Executor :=
  set_dm (snd (DeviceManager.update_device_action device_id action
                 (device_manager ex))) ex.

(** [step_name in enabled_steps and not enabled_steps[step_name]] *)
Definition step_disabled (enabled_steps : list (string * pyval))
    (step_name : pyval) : outcome bool :=
  if negb (hashable step_name) then Raised "unhashable type"
  else
    match step_name with
    | VStr s =>
        match assoc s enabled_steps with
        | Some v => Returned (negb (truthy v))
        | None => Returned false
        end
    | _ => Returned false
    end.

(** How one pass through the body of the step loop ends. *)
Inductive step_exit : Type :=
  | Next                       (* on to the next step *)
  | Break (success : bool)     (* [break], with the value of [success] *)
  | Cancelled                  (* [asyncio.CancelledError] *)
  | Failed (msg : string).     (* an exception leaves the loop *)

(** The body of [for i, step in enumerate(steps)]. *)
Definition run_step (env : Env) (device_id : string)
    (config_module : py_module) (enabled_steps : list (string * pyval))
    (i : nat) (step : pyval) (ex : Executor) : step_exit * Executor :=
  if negb (running_at env i) then (Break true, set_running false ex)
  else
    match gate_at env i with
    | GateCancelled => (Cancelled, ex)
    | GateOpen =>
        match step with
        | VDict step =>
            let step_name :=
              get_default "name"
                (VStr ("Шаг " +:+ pretty (Z.of_nat i + 1))) step in
            let step_description :=
              get_default "description" step_name step in
            match step_disabled enabled_steps step_name with
            | Raised msg => (Failed msg, ex)
            | Returned true => (Next, ex)
            | Returned false =>
                let action_name := get_default "action" VNone step in
                if negb (truthy action_name) then (Break false, ex)
                else
                  match action_name with
                  | VStr action_name =>
                      match config_module !! action_name with
                      | None => (Break false, ex)
                      | Some (AValue _) => (Break false, ex)
                      | Some (ACallable action_func) =>
                          let ex := tag device_id step_description ex in
                          let '(r, dm) :=
                            action_func
                              {| positional := [VStr device_id];
                                 keywords := step |}
                              (device_manager ex) in
                          let ex :=
                            log_call (CalledHandler action_name)
                              (set_dm dm ex) in
                          match r with
                          | Raised _ => (Break false, ex)
                          | Returned step_success =>
                              if negb (truthy step_success) then
                                (Break false, ex)
                              else (Next, ex)
                          end
                      end
                  | _ => (Failed "attribute name must be string", ex)
                  end
            end
        | _ => (Failed "object has no attribute 'get'", ex)
        end
    end.

(** How the step loop ends. *)
Inductive loop_exit : Type :=
  | Finished (success : bool)
  | LoopCancelled
  | LoopFailed (msg : string).

(** The step loop from index [i] on. *)
Fixpoint run_steps (env : Env) (device_id : string)
    (config_module : py_module) (enabled_steps : list (string * pyval))
    (i : nat) (steps : list pyval) (ex : Executor) : loop_exit * Executor :=
  match steps with
  | [] => (Finished true, ex)
  | step :: steps' =>
      match run_step env device_id config_module enabled_steps i step ex with
      | (Next, ex') =>
          run_steps env device_id config_module enabled_steps (S i) steps' ex'
      | (Break success, ex') => (Finished success, ex')
      | (Cancelled, ex') => (LoopCancelled, ex')
      | (Failed msg, ex') => (LoopFailed msg, ex')
      end
  end.

(** The call of [finalize], when the module has one; what it raises is
    logged and dropped. *)
Definition call_finalize (device_id : string) (config_module : py_module)
    (success : bool) (ex : Executor) : Executor :=
  match config_module !! "finalize" with
  | None => ex
  | Some a =>
      let '(_, dm) :=
        call a {| positional := [VStr device_id; VBool success];
                  keywords := [] |} (device_manager ex) in
      log_call (CalledFinalize success) (set_dm dm ex)
  end.

(** The call of [initialize], when the module has one, and whether the run
    goes on. *)
Definition call_initialize (device_id : string) (config_module : py_module)
    (ex : Executor) : bool * Executor :=
  match config_module !! "initialize" with
  | None => (true, ex)
  | Some a =>
      let '(r, dm) :=
        call a {| positional := [VStr device_id]; keywords := [] |}
          (device_manager ex) in
      let ex := log_call CalledInitialize (set_dm dm ex) in
      match r with
      | Returned init_success => (truthy init_success, ex)
      | Raised _ => (false, ex)
      end
  end.

(** [execute_config] from the step loop on: the loop, the reset of the
    action tag, [finalize], and the two [except] clauses of the function.
    A mask that is not a dictionary is excluded by the validation; the
    first membership test would raise on it. *)
Definition execute_steps (env : Env) (device_id : string)
    (config_module : py_module) (config : list (string * pyval))
    (steps : list pyval) (ex : Executor) : bool * Executor :=
  match get_default "enabled_steps" (VDict []) config with
  | VDict enabled_steps =>
      match run_steps env device_id config_module enabled_steps 0 steps ex with
      | (Finished success, ex) =>
          let ex := tag device_id VNone ex in
          let ex := call_finalize device_id config_module success ex in
          (success, forget device_id ex)
      | (LoopCancelled, ex) => (false, forget device_id (tag device_id VNone ex))
      | (LoopFailed _, ex) => (false, forget device_id (tag device_id VNone ex))
      end
  | _ => (false, forget device_id (tag device_id VNone ex))
  end.

(** [execute_config]; [device_logger] is [None] when the caller passes no
    logger. *)
Definition execute_config (env : Env) (device_id config_name : string)
    (device_logger : option unit) (ex : Executor) : bool * Executor :=
  let ex :=
    match device_logger with
    | None =>
        set_dm (DeviceManager.get_device_logger device_id (device_manager ex)) ex
    | Some _ => ex
    end in
  let ex := mark_running device_id config_name ex in
  let '(valid, cl) :=
    ConfigLoader.validate_config (fs env) config_name (config_loader ex) in
  let ex := set_cl cl ex in
  if negb valid then (false, forget device_id ex)
  else
    match ConfigLoader.get_loaded_config config_name (config_loader ex) with
    | None => (false, forget device_id ex)
    | Some config_data =>
        let config_module := ConfigLoader.module config_data in
        let config := ConfigLoader.config config_data in
        if negb (DeviceManager.device_connected device_id (device_manager ex))
        then (false, forget device_id ex)
        else
          let '(init_success, ex) :=
            call_initialize device_id config_module ex in
          if negb init_success then (false, forget device_id ex)
          else
            let steps := get_default "steps" (VList []) config in
            if negb (truthy steps) then
              let ex := call_finalize device_id config_module false ex in
              (false, forget device_id ex)
            else
              match steps with
              | VList steps =>
                  execute_steps env device_id config_module config steps ex
              | _ => (false, forget device_id (tag device_id VNone ex))
              end
    end.

(** The action tag of a device as the executor's manager has it. *)
Definition action_of (device_id : string) (ex : Executor) : pyval :=
  DeviceManager.action_of device_id (device_manager ex).

(** A script function that leaves the action tag of the device as it finds
    it. *)
Definition keeps_tag (device_id : string) (a : attr) : Prop :=
  forall args dm,
    DeviceManager.action_of device_id (snd (call a args dm))
    = DeviceManager.action_of device_id dm.

(** A script function that answers a true value whenever it is called. *)
Definition succeeds (a : attr) : Prop :=
  forall args dm,
    exists v dm', call a args dm = (Returned v, dm') /\ truthy v = true.

(** The actions of the steps that are not disabled, in the order of the
    steps; [i] is the index of the first step. *)
Fixpoint planned_actions (enabled_steps : list (string * pyval)) (i : nat)
    (steps : list pyval) : list string :=
  match steps with
  | [] => []
  | VDict step :: steps' =>
      let step_name :=
        get_default "name" (VStr ("Шаг " +:+ pretty (Z.of_nat i + 1))) step in
      match step_disabled enabled_steps step_name with
      | Returned true => planned_actions enabled_steps (S i) steps'
      | _ =>
          match get_default "action" VNone step with
          | VStr action_name =>
              action_name :: planned_actions enabled_steps (S i) steps'
          | _ => planned_actions enabled_steps (S i) steps'
          end
      end
  | _ :: steps' => planned_actions enabled_steps (S i) steps'
  end.

(** The device is not among the running ones. *)
Definition forgotten (device_id : string) (ex : Executor) : Prop :=
  running_configs ex !! device_id = None /\ device_id ∉ running_devices ex.

(** An exit of the loop body that calls nothing and is not [Next]. *)
Ltac quiet_exit H :=
  injection H as <- <-; exists []; cbn [map length];
  rewrite app_nil_r; split; [reflexivity|]; split; [lia | discriminate].

(** *** Sample data *)

(** A run nobody stops, pauses or cancels. *)
Definition quiet (fs : ConfigLoader.FileSystem) : Env :=
  {| fs := fs; running_at := fun _ => true; gate_at := fun _ => GateOpen |}.

(** A function that answers [True] and leaves the manager alone. *)
Definition return_true : callable := fun _ dm => (Returned (VBool true), dm).

(** The roster with the one device [127.0.0.1:5555], connected. *)
Definition one_connected : DeviceManager.DeviceManager :=
  DeviceManager.update_device "127.0.0.1:5555"
    (DeviceManager.set_connection true "Подключено")
    (snd (DeviceManager.load_devices (Some (Returned ["127.0.0.1:5555"]))
            DeviceManager.empty_manager)).

Definition fresh (cl : ConfigLoader.ConfigLoader) : Executor :=
  {| device_manager := one_connected; config_loader := cl;
     running := false; paused := false;
     running_configs := ∅; running_devices := ∅; calls := [] |}.

(** A script without steps, with both hooks. *)
Definition no_steps_module : py_module :=
  <["initialize" := ACallable return_true]>
    (<["finalize" := ACallable return_true]>
      (ConfigLoader.module_of [("actions", VList []); ("steps", VList [])])).

(** A script of two steps whose handler [nop] answers [True]. *)
Definition two_steps : list pyval :=
  [ VDict [("name", VStr "first"); ("description", VStr "first step");
           ("action", VStr "nop")];
    VDict [("name", VStr "second"); ("description", VStr "second step");
           ("action", VStr "nop")] ].

Definition two_steps_module : py_module :=
  <["nop" := ACallable return_true]>
    (ConfigLoader.module_of
       [("actions", VList []); ("steps", VList two_steps)]).

End ActionExecutor.

(** * Verification *)

(** ** Scheduler *)

(** The trigger test looks at the clock reading only: two samples of the
    same minute get the same answer. *)
Lemma should_run_same_minute (s : Scheduler.Scheduler) (t1 t2 : Z) :
  Scheduler.minute t1 = Scheduler.minute t2 ->
  Scheduler.should_run s t1 = Scheduler.should_run s t2.
Proof. unfold Scheduler.should_run. intros ->. reflexivity. Qed.

(** While the scheduler runs unpaused, a sample that fires is followed by a
    second run at the next sample whenever that sample falls in the same
    minute. *)
Lemma scheduler_task_fires_again (fuel : nat) (s : Scheduler.Scheduler)
    (run_cost now : Z) :
  Scheduler.running s = true ->
  Scheduler.paused s = false ->
  Scheduler.should_run s now = true ->
  Scheduler.minute (now + run_cost + 10) = Scheduler.minute now ->
  Scheduler._scheduler_task (S (S fuel)) s run_cost now =
    now :: (now + run_cost + 10)
        :: Scheduler._scheduler_task fuel s run_cost
             (now + run_cost + 10 + run_cost + 10).
Proof.
  intros Hrun Hpause Hfire Hminute.
  cbn [Scheduler._scheduler_task].
  rewrite Hrun, Hpause, Hfire. cbn [negb].
  rewrite (should_run_same_minute s _ _ Hminute), Hfire. reflexivity.
Qed.

(** C1.  With the default trigger set {5, 25, 45}, a scheduler that is
    running and not paused, a clock that enters minute 5 at second 300 and a
    [run_automation] that takes one second, the trigger loop calls
    [run_automation] six times inside the 60-second window of minute 5, once
    per clock sample, and not once: the test looks at the minute before the
    current one, not at the minute of the previous sample. *)
Theorem scheduler_fires_on_every_sample :
  Scheduler.minute 300 = 5 /\
  Scheduler.in_minutes 5 (Scheduler.run_minutes Scheduler.default_scheduler) = true /\
  Scheduler.in_minutes ((5 - 1) mod 60)
    (Scheduler.run_minutes Scheduler.default_scheduler) = false /\
  Scheduler.runs_in_window 300
    (Scheduler._scheduler_task 12 Scheduler.default_scheduler 1 300)
  = [300; 311; 322; 333; 344; 355].
Proof. repeat split; vm_compute; reflexivity. Qed.

(** ** Bridge client *)

Section Screenshot.
Import ADBManager.
Variables (cwd device_id : string) (now1 now2 : Z).
Variable local_path : option string.
Variable w : World.

(** When the capture and the pull succeed, the removal is issued. *)
Lemma take_screenshot_success_issues_rm (rm : bool) :
  let env := {| makedirs_ok := true; screencap_ok := true;
                pull_ok := true; rm_ok := rm |} in
  rm_issued device_id (remote_path_of now2)
    (snd (take_screenshot env cwd now1 now2 device_id local_path w)) = true.
Proof.
  unfold take_screenshot, rm_issued; simpl.
  rewrite andb_false_r. simpl.
  rewrite !existsb_app. simpl.
  rewrite !String.eqb_refl. simpl. rewrite !orb_true_r. reflexivity.
Qed.

(** C3.  When the capture on the device succeeds and the pull fails,
    [take_screenshot] answers [None] having issued the capture and the
    pull and nothing after them: no [rm] follows, and the temporary file
    is still on the device when the operation returns. *)
Theorem take_screenshot_pull_failure_leaves_remote_file (rm : bool) :
  let env := {| makedirs_ok := true; screencap_ok := true;
                pull_ok := false; rm_ok := rm |} in
  let r := take_screenshot env cwd now1 now2 device_id local_path w in
  fst r = None /\
  remote_path_of now2 ∈ remote_files (snd r) /\
  exists local,
    issued (snd r) =
      issued w ++ [Shell device_id (screencap_cmd (remote_path_of now2));
                   Pull device_id (remote_path_of now2) local].
Proof.
  unfold take_screenshot; simpl. rewrite andb_false_r. simpl.
  split; [reflexivity|]. split; [set_solver|].
  eexists. rewrite <- app_assoc. reflexivity.
Qed.

End Screenshot.

(** ** Device manager: unknown devices, connecting *)

Section UnknownDevice.
Import DeviceManager.
Variable adb : AdbManager.
Variable dm : DeviceManager.
Variable device_id : string.
Hypothesis unknown : devices dm !! device_id = None.

Lemma unknown_not_known : known device_id dm = false.
Proof.
  unfold known. apply bool_decide_eq_false. rewrite unknown.
  intros [x Hx]. discriminate.
Qed.

(** C10.  For a device id that is not in the roster, each of
    [connect_device], [disconnect_device], [input_tap], [input_text],
    [restart_app], [take_screenshot] and [execute_adb_command] returns its
    failure value ([False], [None], a tuple starting with [False]); none
    of them raises, and the manager, with every device record, is left as
    it was. *)
Theorem unknown_device_operations_fail_without_effect
    (now : Q) (x y : Z) (text package_name : string)
    (command : list string) (action_description : option string) :
  connect_device adb now device_id dm = (false, dm) /\
  disconnect_device adb device_id dm = (false, dm) /\
  input_tap adb device_id x y action_description dm = (false, dm) /\
  input_text adb device_id text action_description dm = (false, dm) /\
  restart_app adb device_id package_name action_description dm = (false, dm) /\
  take_screenshot adb device_id dm = (None, dm) /\
  execute_adb_command adb device_id command action_description dm
  = ((false, "", "Устройство не найдено в списке"), dm).
Proof.
  unfold connect_device, disconnect_device, input_tap, input_text,
    restart_app, take_screenshot, execute_adb_command.
  rewrite unknown_not_known. simpl.
  repeat split.
Qed.

End UnknownDevice.

(** The operations on the empty roster, for the id [10.0.0.9:5555]. *)
Lemma unknown_device_operations_witness :
  DeviceManager.devices DeviceManager.empty_manager !! "10.0.0.9:5555" = None /\
  DeviceManager.connect_device DeviceManager.adb_all_ok 0 "10.0.0.9:5555"
    DeviceManager.empty_manager = (false, DeviceManager.empty_manager) /\
  DeviceManager.take_screenshot DeviceManager.adb_all_ok "10.0.0.9:5555"
    DeviceManager.empty_manager = (None, DeviceManager.empty_manager).
Proof.
  split; [reflexivity|].
  pose proof (unknown_device_operations_fail_without_effect
                DeviceManager.adb_all_ok DeviceManager.empty_manager
                "10.0.0.9:5555" eq_refl 0 1 2 "text" "com.example.app"
                ["shell"; "ls"] None) as H.
  split; [apply H|]. apply H.
Defined.

Section Connect.
Import DeviceManager.
Variable adb : AdbManager.
Variable dm : DeviceManager.
Variable device_id : string.
Variable d : Device.
Hypothesis present : devices dm !! device_id = Some d.

Lemma present_known : known device_id dm = true.
Proof. unfold known. apply bool_decide_eq_true. rewrite present. eauto. Qed.

(** A successful [connect_device] leaves the record connected, with the
    fetched information, the time of the attempt, and the counter one
    higher than before. *)
Lemma connect_device_success (now : Q) (device_info : gmap string string) :
  adb_connect_device adb device_id = Returned true ->
  adb_get_device_info adb device_id = Returned device_info ->
  exists dm',
    connect_device adb now device_id dm = (true, dm') /\
    devices dm' !! device_id =
      Some (set_info device_info
              (set_connection true "Подключено" (set_attempt now d))).
Proof.
  intros Hc Hi. unfold connect_device.
  rewrite present_known, Hc, Hi. simpl.
  eexists; split; [reflexivity|].
  unfold update_device; simpl.
  rewrite !lookup_alter_eq, present. reflexivity.
Qed.

(** A failed [connect_device] leaves the record disconnected, with the
    time of the attempt and the counter one higher than before. *)
Lemma connect_device_failure (now : Q) :
  adb_connect_device adb device_id = Returned false ->
  exists dm',
    connect_device adb now device_id dm = (false, dm') /\
    devices dm' !! device_id =
      Some (set_connection false "Ошибка подключения" (set_attempt now d)).
Proof.
  intros Hc. unfold connect_device.
  rewrite present_known, Hc. simpl.
  eexists; split; [reflexivity|].
  unfold update_device; simpl.
  rewrite !lookup_alter_eq, present. reflexivity.
Qed.

(** The status sweep, on a device adb lists in state [device], resets the
    counter. *)
Lemma update_device_statuses_resets_attempts
    (adb_devices : list (string * string)) :
  adb_get_devices adb = Returned adb_devices ->
  device_states adb_devices !! device_id = Some "device" ->
  connection_attempts <$> devices (update_device_statuses adb dm) !! device_id
  = Some 0.
Proof.
  intros Hg Hs. unfold update_device_statuses. rewrite Hg. simpl.
  rewrite map_lookup_imap, present. simpl.
  unfold sweep_device. rewrite Hs. reflexivity.
Qed.

End Connect.

(** C6.  On the roster with the one device [127.0.0.1:5555], not yet
    connected and with a counter of 0, a [connect_device] that succeeds
    returns [True] and leaves the record connected with the fetched
    information and the time of the attempt, and with a counter of 1: the
    counter was incremented and is not reset to 0. *)
Theorem connect_device_success_keeps_counter :
  let dm := snd (DeviceManager.load_devices (Some (Returned ["127.0.0.1:5555"]))
                   DeviceManager.empty_manager) in
  let r := DeviceManager.connect_device DeviceManager.adb_all_ok 1700000000
             "127.0.0.1:5555" dm in
  (DeviceManager.connection_attempts <$>
     DeviceManager.devices dm !! "127.0.0.1:5555") = Some 0 /\
  fst r = true /\
  (DeviceManager.connected <$>
     DeviceManager.devices (snd r) !! "127.0.0.1:5555") = Some true /\
  (DeviceManager.info <$>
     DeviceManager.devices (snd r) !! "127.0.0.1:5555")
    = Some {[ "id" := "127.0.0.1:5555" ]} /\
  (DeviceManager.last_connection_attempt <$>
     DeviceManager.devices (snd r) !! "127.0.0.1:5555") = Some 1700000000%Q /\
  (DeviceManager.connection_attempts <$>
     DeviceManager.devices (snd r) !! "127.0.0.1:5555") = Some 1.
Proof. repeat split; vm_compute; reflexivity. Qed.

(** ** Device manager: the roster file *)

Section Roster.
Import DeviceManager.

Lemma contains_append (c : ascii) (a b : string) :
  Str.contains c (a +:+ b) = Str.contains c a || Str.contains c b.
Proof.
  induction a as [|x a IH]; simpl; [reflexivity|].
  rewrite IH. apply orb_assoc.
Qed.

(** A string with the separator in it splits into two parts at least. *)
Lemma split_contains (sep : ascii) (s : string) :
  Str.contains sep s = true ->
  exists a b rest, Str.split sep s = a :: b :: rest.
Proof.
  induction s as [|c s IH]; simpl; [discriminate|].
  destruct (Ascii.eqb c sep); simpl.
  - intros _. destruct s as [|c' s']; simpl; [eauto|].
    destruct (Ascii.eqb c' sep); [eauto|].
    destruct (Str.split sep s'); eauto.
  - intros H. destruct (IH H) as (a & b & rest & ->). eauto.
Qed.

(** A string without the separator is its own single part. *)
Lemma split_no_sep (sep : ascii) (s : string) :
  Str.contains sep s = false -> Str.split sep s = [s].
Proof.
  induction s as [|c s IH]; simpl; [reflexivity|].
  destruct (Ascii.eqb c sep); simpl; [discriminate|].
  intros H. rewrite (IH H). reflexivity.
Qed.

Lemma load_line_keys (acc : gmap string Device * gset string) (line : string) :
  keys_have_colon (fst acc) -> keys_have_colon (fst (load_line acc line)).
Proof.
  intros Hacc. unfold load_line.
  destruct (String.eqb (Str.strip line) "" || Str.startswith "#" (Str.strip line));
    [exact Hacc|].
  destruct (Str.split ":" (Str.strip line)) as [|ip [|port rest]];
    [exact Hacc | exact Hacc |].
  simpl. intros device_id.
  destruct (decide (ip +:+ ":" +:+ port = device_id)) as [<-|Hne].
  - intros _. rewrite !contains_append. simpl. apply orb_true_r.
  - rewrite lookup_insert_ne by exact Hne. apply Hacc.
Qed.

Lemma foldl_load_line_keys (lines : list string)
    (acc : gmap string Device * gset string) :
  keys_have_colon (fst acc) ->
  keys_have_colon (fst (foldl load_line acc lines)).
Proof.
  revert acc. induction lines as [|line lines IH]; intros acc Hacc; simpl.
  - exact Hacc.
  - apply IH, load_line_keys, Hacc.
Qed.

(** The loop never removes an id. *)
Lemma load_line_keeps (acc : gmap string Device * gset string) (line : string)
    (device_id : string) :
  is_Some (fst acc !! device_id) ->
  is_Some (fst (load_line acc line) !! device_id).
Proof.
  intros Hacc. unfold load_line.
  destruct (String.eqb (Str.strip line) "" || Str.startswith "#" (Str.strip line));
    [exact Hacc|].
  destruct (Str.split ":" (Str.strip line)) as [|ip [|port rest]];
    [exact Hacc | exact Hacc |].
  simpl. rewrite lookup_insert_is_Some. 
  destruct (decide (ip +:+ ":" +:+ port = device_id)); [left|right]; done.
Qed.

Lemma foldl_load_line_keeps (lines : list string)
    (acc : gmap string Device * gset string) (device_id : string) :
  is_Some (fst acc !! device_id) ->
  is_Some (fst (foldl load_line acc lines) !! device_id).
Proof.
  revert acc. induction lines as [|line lines IH]; intros acc Hacc; simpl.
  - exact Hacc.
  - apply IH, load_line_keeps, Hacc.
Qed.

Lemma load_devices_devices (lines : list string) (dm : DeviceManager) :
  devices (snd (load_devices (Some (Returned lines)) dm))
  = fst (foldl load_line (∅, device_loggers dm) lines).
Proof.
  unfold load_devices.
  destruct (foldl load_line (∅, device_loggers dm) lines). reflexivity.
Qed.


End Roster.



(** ** Script store *)

Section Store.
Import Py Script ConfigLoader.
Variable fs : FileSystem.
Variable config_name : string.

(** A cached entry is returned as it is. *)
Lemma load_config_cached (cl : ConfigLoader) (e : Entry) :
  loaded_configs cl !! config_name = Some e ->
  load_config fs config_name cl = (Some e, cl).
Proof. intros H. unfold load_config. rewrite H. reflexivity. Qed.

(** What [load_config] returns is cached afterwards. *)
Lemma load_config_some (cl cl' : ConfigLoader) (e : Entry) :
  load_config fs config_name cl = (Some e, cl') ->
  loaded_configs cl' !! config_name = Some e.
Proof.
  unfold load_config.
  destruct (loaded_configs cl !! config_name) as [e0|] eqn:Hl.
  - intros [= <- <-]. exact Hl.
  - destruct (fs (config_path cl config_name)) as [| | |m]; try discriminate.
    destruct (m !! "CONFIG") as [[f|v]|]; try discriminate.
    destruct v; try discriminate.
    intros [= <- <-]. simpl. apply lookup_insert_eq.
Qed.

(** A load that fails leaves the cache as it was, without the entry. *)
Lemma load_config_none (cl cl' : ConfigLoader) :
  load_config fs config_name cl = (None, cl') ->
  cl' = cl /\ loaded_configs cl !! config_name = None.
Proof.
  unfold load_config.
  destruct (loaded_configs cl !! config_name) as [e0|] eqn:Hl; [discriminate|].
  destruct (fs (config_path cl config_name)) as [| | |m];
    try (intros [= <-]; split; reflexivity).
  destruct (m !! "CONFIG") as [[f|v]|];
    try (intros [= <-]; split; reflexivity).
  destruct v; intros [= <-]; split; reflexivity.
Qed.

(** [validate_config] is the check of the dictionary of the entry that
    [load_config] returns, and changes the cache as [load_config] does. *)
Lemma validate_config_pair (cl : ConfigLoader) :
  validate_config fs config_name cl =
    (match fst (load_config fs config_name cl) with
     | Some e => check_config (config e)
     | None => false
     end,
     snd (load_config fs config_name cl)).
Proof.
  unfold validate_config, is_config_loaded.
  destruct (loaded_configs cl !! config_name) as [e|] eqn:Hl.
  - rewrite bool_decide_eq_true_2 by eauto.
    rewrite (load_config_cached _ _ Hl). simpl. rewrite Hl. reflexivity.
  - rewrite bool_decide_eq_false_2 by (intros [x Hx]; discriminate).
    destruct (load_config fs config_name cl) as [[e|] cl'] eqn:Hload; simpl.
    + rewrite (load_config_some _ _ _ Hload). reflexivity.
    + reflexivity.
Qed.

(** The checks of [check_config] as lookups in the dictionary. *)
Lemma check_config_iff (c : list (string * pyval)) :
  check_config c = true <->
  exists actions steps,
    assoc "actions" c = Some (VList actions) /\
    assoc "steps" c = Some (VList steps) /\
    (assoc "enabled_steps" c = None \/
     exists mask, assoc "enabled_steps" c = Some (VDict mask)).
Proof.
  unfold check_config, has_key, get_default. split.
  - destruct (assoc "actions" c) as [a|]; simpl; [|discriminate].
    destruct (assoc "steps" c) as [s|]; simpl; [|discriminate].
    destruct a; simpl; try discriminate.
    destruct s; simpl; try discriminate.
    destruct (assoc "enabled_steps" c) as [m|]; simpl; [|eauto 6].
    destruct m; simpl; try discriminate. eauto 8.
  - intros (a & s & -> & -> & [-> | [m ->]]); reflexivity.
Qed.

(** C9 (as the code has it).  [validate_config] answers [True] exactly when
    the script is cached or loads, its [CONFIG] has an [actions] field and a
    [steps] field that are both lists (empty or not), and its
    [enabled_steps] field, when there is one, is a dictionary (of whatever
    values). *)
Theorem validate_config_iff (cl : ConfigLoader) :
  fst (validate_config fs config_name cl) = true <->
  exists e,
    fst (load_config fs config_name cl) = Some e /\
    exists actions steps,
      assoc "actions" (config e) = Some (VList actions) /\
      assoc "steps" (config e) = Some (VList steps) /\
      (assoc "enabled_steps" (config e) = None \/
       exists mask, assoc "enabled_steps" (config e) = Some (VDict mask)).
Proof.
  rewrite validate_config_pair. simpl.
  destruct (fst (load_config fs config_name cl)) as [e|].
  - rewrite check_config_iff. split.
    + intros H. exists e. split; [reflexivity | exact H].
    + intros (e' & [= <-] & H). exact H.
  - split; [discriminate|]. intros (e' & [=] & _).
Qed.

(** C7 (as the code has it).  When [reload_config] fails, the entry of that
    name is no longer cached, [get_loaded_config] answers [None] for it, and
    every other entry is as before. *)
Theorem reload_config_failure_drops_entry (cl : ConfigLoader) :
  fst (reload_config fs config_name cl) = false ->
  let cl' := snd (reload_config fs config_name cl) in
  get_loaded_config config_name cl' = None /\
  forall other, other <> config_name ->
    get_loaded_config other cl' = get_loaded_config other cl.
Proof.
  unfold reload_config, get_loaded_config.
  destruct (load_config fs config_name
              (set_loaded (delete config_name (loaded_configs cl)) cl))
    as [[e|] cl'] eqn:Hload; simpl; [discriminate|].
  intros _. apply load_config_none in Hload as [-> _]. simpl. split.
  - apply lookup_delete_eq.
  - intros other Hne. apply lookup_delete_ne. congruence.
Qed.

End Store.

(** A script that is cached and whose file has been removed since. *)
Lemma reload_config_failure_witness :
  let cl := snd (ConfigLoader.load_config
                   (ConfigLoader.one_file "configs/demo.py"
                      (ConfigLoader.module_of
                         [("actions", Py.VList []); ("steps", Py.VList [])]))
                   "demo" ConfigLoader.empty_loader) in
  fst (ConfigLoader.reload_config ConfigLoader.no_files "demo" cl) = false /\
  ConfigLoader.get_loaded_config "demo"
    (snd (ConfigLoader.reload_config ConfigLoader.no_files "demo" cl)) = None.
Proof.
  split; [reflexivity|].
  apply (reload_config_failure_drops_entry ConfigLoader.no_files "demo").
  reflexivity.
Defined.

(** C7 (as stated) fails: the script [demo] is cached and [get] returns it;
    its file is removed; [reload("demo")] fails, and [get] does not return
    the previously cached entry any more. *)
Lemma failed_reload_loses_cached_entry :
  let cl := snd (ConfigLoader.load_config
                   (ConfigLoader.one_file "configs/demo.py"
                      (ConfigLoader.module_of
                         [("actions", Py.VList []); ("steps", Py.VList [])]))
                   "demo" ConfigLoader.empty_loader) in
  let r := ConfigLoader.reload_config ConfigLoader.no_files "demo" cl in
  is_Some (ConfigLoader.get_loaded_config "demo" cl) /\
  fst r = false /\
  ConfigLoader.get_loaded_config "demo" (snd r)
    <> ConfigLoader.get_loaded_config "demo" cl.
Proof.
  split; [eexists; reflexivity|]. split; [reflexivity|].
  vm_compute. discriminate.
Qed.

(** C9 (as stated) fails in both directions: a script with an empty [steps]
    list (and an [actions] list) is valid for [validate_config], though the
    stated rule rejects it; a script with one step, no mask and no [actions]
    field is invalid for [validate_config], though the stated rule accepts
    it; and a mask with a value that is not a boolean is accepted. *)
Lemma validate_config_differs_from_stated_rule :
  let empty_steps := [("actions", Py.VList []); ("steps", Py.VList [])] in
  let no_actions := [("steps", Py.VList [Py.VDict [("name", Py.VStr "s")]])] in
  let odd_mask := [("actions", Py.VList []);
                   ("steps", Py.VList [Py.VDict [("name", Py.VStr "s")]]);
                   ("enabled_steps", Py.VDict [("s", Py.VStr "yes")])] in
  let validate c :=
    fst (ConfigLoader.validate_config
           (ConfigLoader.one_file "configs/demo.py" (ConfigLoader.module_of c))
           "demo" ConfigLoader.empty_loader) in
  (validate empty_steps = true /\ ConfigLoader.spec_valid empty_steps = false) /\
  (validate no_actions = false /\ ConfigLoader.spec_valid no_actions = true) /\
  (validate odd_mask = true /\ ConfigLoader.spec_valid odd_mask = false).
Proof. repeat split; vm_compute; reflexivity. Qed.

(** ** Image matcher *)

Section Suppression.
Import ImageProcessor.

(** A slice whose bounds are not negative, at an index of the axis. *)
Lemma in_slice_nonneg (len start stop i : Z) :
  0 <= start -> 0 <= stop -> 0 <= i < len ->
  in_slice len start stop i = (start <=? i) && (i <? stop).
Proof.
  intros Hs He Hi. unfold in_slice, slice_bound.
  destruct (start <? 0) eqn:E1; [lia|].
  destruct (stop <? 0) eqn:E2; [lia|].
  f_equal.
  - destruct (Z.min start len <=? i) eqn:Ea, (start <=? i) eqn:Eb; lia.
  - destruct (i <? Z.min stop len) eqn:Ea, (i <? stop) eqn:Eb; lia.
Qed.

(** The cells of a map after a slice of it is set to zero. *)
Lemma cell_zero_slice (m : ScoreMap) (r0 r1 c0 c1 : Z) (r c : nat)
    (row : list Q) (v : Q) :
  m !! r = Some row -> row !! c = Some v ->
  cell (zero_slice m r0 r1 c0 c1) r c =
    Some (if in_slice (Z.of_nat (length m)) r0 r1 (Z.of_nat r)
             && in_slice (Z.of_nat (length row)) c0 c1 (Z.of_nat c)
          then 0%Q else v).
Proof.
  intros Hr Hc. unfold cell, zero_slice.
  rewrite list_lookup_imap, Hr. simpl.
  destruct (in_slice (Z.of_nat (length m)) r0 r1 (Z.of_nat r)); simpl.
  - rewrite list_lookup_imap, Hc. reflexivity.
  - exact Hc.
Qed.

(** The region [suppress] zeroes around a match that is at least [h // 2]
    rows and [w // 2] columns into the map. *)
Lemma cell_suppress (result : ScoreMap) (x y w h : Z) (r c : nat) (v : Q) :
  0 <= w -> 0 <= h -> h / 2 <= y -> w / 2 <= x ->
  cell result r c = Some v ->
  cell (suppress result x y w h) r c =
    Some (if in_code_region x y w h (Z.of_nat r) (Z.of_nat c) then 0%Q else v).
Proof.
  intros Hw Hh Hy Hx Hcell. unfold cell in Hcell.
  destruct (result !! r) as [row|] eqn:Hr; [|discriminate].
  unfold suppress. rewrite (cell_zero_slice _ _ _ _ _ _ _ row v Hr Hcell).
  apply lookup_lt_Some in Hr. apply lookup_lt_Some in Hcell.
  assert (0 <= h / 2) by (apply Z.div_pos; lia).
  assert (0 <= w / 2) by (apply Z.div_pos; lia).
  rewrite !in_slice_nonneg by lia.
  unfold in_code_region.
  rewrite <- !andb_assoc. reflexivity.
Qed.

(** What the loop adds: at most [fuel] matches, each with a score that is
    not below the threshold. *)
Lemma search_loop_found (fuel : nat) (result : ScoreMap) (w h : Z) (thr : Q)
    (found l : list Match) :
  search_loop fuel result w h thr found = Returned l ->
  exists new,
    l = found ++ new /\
    (length new <= fuel)%nat /\
    Forall (fun m : Match => Qlt_bool (snd m) thr = false) new.
Proof.
  revert result found. induction fuel as [|fuel IH]; intros result found; simpl.
  - intros [= <-]. exists []. rewrite app_nil_r.
    split; [reflexivity|]. split; [reflexivity | constructor].
  - destruct (minMaxLoc result) as [[max_val [x y]]|]; [|discriminate].
    destruct (Qlt_bool max_val thr) eqn:Hlt.
    + intros [= <-]. exists []. rewrite app_nil_r.
      split; [reflexivity|]. split; [simpl; lia | constructor].
    + intros Hloop. destruct (IH _ _ Hloop) as (new & -> & Hlen & Hall).
      exists ((x, y, w, h, max_val) :: new). rewrite <- app_assoc.
      split; [reflexivity|]. split; [simpl; lia|].
      constructor; [exact Hlt | exact Hall].
Qed.


End Suppression.



(** ** Step executor *)

Section Run.
Import Py Script ActionExecutor.
Variable env : Env.
Variable device_id : string.

(** Creating the logger of a device leaves the devices as they are. *)
Lemma get_device_logger_devices (dm : DeviceManager.DeviceManager) :
  DeviceManager.devices (DeviceManager.get_device_logger device_id dm)
  = DeviceManager.devices dm.
Proof.
  unfold DeviceManager.get_device_logger.
  destruct (negb (DeviceManager.known device_id dm)); reflexivity.
Qed.

(** A connected device is known and passes [device_connected]. *)
Lemma device_connected_of_devices (dm dm' : DeviceManager.DeviceManager) :
  DeviceManager.devices dm' = DeviceManager.devices dm ->
  DeviceManager.is_connected device_id dm = true ->
  DeviceManager.device_connected device_id dm' = true.
Proof.
  unfold DeviceManager.device_connected, DeviceManager.known,
    DeviceManager.is_connected.
  intros ->. destruct (DeviceManager.devices dm !! device_id) as [d|] eqn:Hd;
    [|discriminate].
  intros Hc. rewrite bool_decide_eq_true_2 by eauto. exact Hc.
Qed.

(** C2 (as the code has it).  For a script that loads and passes
    [validate_config], whose [steps] list is empty, run against a connected
    device, with an [initialize] hook that (if present) answers true:
    [execute_config] returns [False]; the calls it makes into the script are
    [initialize], if present, followed by [finalize] with [success = False],
    if present, and no step handler. *)
Theorem execute_config_empty_steps (config_name : string)
    (device_logger : option unit) (ex : Executor) (e : ConfigLoader.Entry) :
  fst (ConfigLoader.load_config (fs env) config_name (config_loader ex)) = Some e ->
  fst (ConfigLoader.validate_config (fs env) config_name (config_loader ex)) = true ->
  assoc "steps" (ConfigLoader.config e) = Some (VList []) ->
  DeviceManager.is_connected device_id (device_manager ex) = true ->
  (forall a, ConfigLoader.module e !! "initialize" = Some a -> succeeds a) ->
  let r := execute_config env device_id config_name device_logger ex in
  fst r = false /\
  calls (snd r) =
    calls ex
    ++ (if hasattr (ConfigLoader.module e) "initialize"
        then [CalledInitialize] else [])
    ++ (if hasattr (ConfigLoader.module e) "finalize"
        then [CalledFinalize false] else []).
Proof.
  intros Hload Hvalid Hsteps Hconn Hinit.
  unfold execute_config.
  set (ex0 := match device_logger with
              | None => set_dm (DeviceManager.get_device_logger device_id
                                  (device_manager ex)) ex
              | Some _ => ex
              end).
  assert (Hcl0 : config_loader ex0 = config_loader ex)
    by (subst ex0; destruct device_logger; reflexivity).
  assert (Hcalls0 : calls ex0 = calls ex)
    by (subst ex0; destruct device_logger; reflexivity).
  assert (Hdev0 : DeviceManager.devices (device_manager ex0)
                  = DeviceManager.devices (device_manager ex)).
  { subst ex0; destruct device_logger; [reflexivity|].
    simpl. apply get_device_logger_devices. }
  clearbody ex0.
  simpl config_loader. rewrite Hcl0.
  rewrite validate_config_pair in Hvalid |- *. rewrite Hload in Hvalid |- *.
  simpl in Hvalid. rewrite Hvalid. simpl negb. cbv iota.
  destruct (ConfigLoader.load_config (fs env) config_name (config_loader ex))
    as [o cl'] eqn:Hpair.
  simpl in Hload. subst o. simpl snd.
  unfold ConfigLoader.get_loaded_config. simpl config_loader.
  rewrite (load_config_some _ _ _ _ _ Hpair).
  simpl device_manager.
  rewrite (device_connected_of_devices (device_manager ex) (device_manager ex0)
             Hdev0 Hconn).
  simpl negb. cbv iota.
  unfold get_default. rewrite Hsteps. simpl truthy. simpl negb. cbv iota.
  unfold call_initialize, call_finalize, hasattr.
  destruct (ConfigLoader.module e !! "initialize") as [a|] eqn:Hi.
  - rewrite bool_decide_eq_true_2 by eauto.
    destruct (Hinit a eq_refl
                {| positional := [VStr device_id]; keywords := [] |}
                (device_manager ex0)) as (v & dm' & Hcall & Hv).
    simpl device_manager. rewrite Hcall. rewrite Hv. simpl negb. cbv iota.
    destruct (ConfigLoader.module e !! "finalize") as [f|] eqn:Hf.
    + rewrite bool_decide_eq_true_2 by eauto.
      simpl device_manager.
      destruct (call f _ dm') as [rf dmf]. simpl.
      rewrite Hcalls0, <- app_assoc. split; reflexivity.
    + rewrite bool_decide_eq_false_2 by (intros [x Hx]; discriminate).
      simpl. rewrite Hcalls0. split; reflexivity.
  - rewrite bool_decide_eq_false_2 by (intros [x Hx]; discriminate).
    simpl negb. cbv iota.
    destruct (ConfigLoader.module e !! "finalize") as [f|] eqn:Hf.
    + rewrite bool_decide_eq_true_2 by eauto.
      simpl device_manager.
      destruct (call f _ _) as [rf dmf]. simpl.
      rewrite Hcalls0. split; reflexivity.
    + rewrite bool_decide_eq_false_2 by (intros [x Hx]; discriminate).
      simpl. rewrite Hcalls0, app_nil_r. split; reflexivity.
Qed.

(** From a script with steps on, [execute_config] is [execute_steps]. *)
Lemma execute_config_runs_steps (config_name : string)
    (device_logger : option unit) (ex : Executor) (e : ConfigLoader.Entry)
    (step : pyval) (steps : list pyval) :
  fst (ConfigLoader.load_config (fs env) config_name (config_loader ex)) = Some e ->
  fst (ConfigLoader.validate_config (fs env) config_name (config_loader ex)) = true ->
  assoc "steps" (ConfigLoader.config e) = Some (VList (step :: steps)) ->
  DeviceManager.is_connected device_id (device_manager ex) = true ->
  (forall a, ConfigLoader.module e !! "initialize" = Some a -> succeeds a) ->
  exists ex1,
    execute_config env device_id config_name device_logger ex =
    execute_steps env device_id (ConfigLoader.module e) (ConfigLoader.config e)
      (step :: steps) ex1.
Proof.
  intros Hload Hvalid Hsteps Hconn Hinit.
  unfold execute_config.
  set (ex0 := match device_logger with
              | None => set_dm (DeviceManager.get_device_logger device_id
                                  (device_manager ex)) ex
              | Some _ => ex
              end).
  assert (Hcl0 : config_loader ex0 = config_loader ex)
    by (subst ex0; destruct device_logger; reflexivity).
  assert (Hdev0 : DeviceManager.devices (device_manager ex0)
                  = DeviceManager.devices (device_manager ex)).
  { subst ex0; destruct device_logger; [reflexivity|].
    simpl. apply get_device_logger_devices. }
  clearbody ex0.
  simpl config_loader. rewrite Hcl0.
  rewrite validate_config_pair in Hvalid |- *. rewrite Hload in Hvalid |- *.
  simpl in Hvalid. rewrite Hvalid. simpl negb. cbv iota.
  destruct (ConfigLoader.load_config (fs env) config_name (config_loader ex))
    as [o cl'] eqn:Hpair.
  simpl in Hload. subst o. simpl snd.
  unfold ConfigLoader.get_loaded_config. simpl config_loader.
  rewrite (load_config_some _ _ _ _ _ Hpair).
  simpl device_manager.
  rewrite (device_connected_of_devices (device_manager ex) (device_manager ex0)
             Hdev0 Hconn).
  simpl negb. cbv iota.
  assert (Hget : get_default "steps" (VList []) (ConfigLoader.config e)
                 = VList (step :: steps))
    by (unfold get_default; rewrite Hsteps; reflexivity).
  rewrite !Hget. simpl truthy. simpl negb. cbv iota.
  unfold call_initialize.
  destruct (ConfigLoader.module e !! "initialize") as [a|] eqn:Hi.
  - destruct (Hinit a eq_refl
                {| positional := [VStr device_id]; keywords := [] |}
                (device_manager ex0)) as (v & dm' & Hcall & Hv).
    simpl device_manager. rewrite Hcall. rewrite Hv. simpl negb. cbv iota.
    eexists. reflexivity.
  - simpl negb. cbv iota. eexists. reflexivity.
Qed.

(** Resetting the tag leaves it empty, whatever the manager holds. *)
Lemma update_device_action_clears (dm : DeviceManager.DeviceManager) :
  DeviceManager.action_of device_id
    (snd (DeviceManager.update_device_action device_id VNone dm)) = VNone.
Proof.
  unfold DeviceManager.update_device_action, DeviceManager.known,
    DeviceManager.action_of.
  destruct (DeviceManager.devices dm !! device_id) as [d|] eqn:Hd.
  - rewrite bool_decide_eq_true_2 by eauto. simpl.
    rewrite lookup_alter_eq, Hd. reflexivity.
  - rewrite bool_decide_eq_false_2 by (intros [x Hx]; discriminate). simpl.
    rewrite Hd. reflexivity.
Qed.

Lemma tag_clears (ex : Executor) :
  action_of device_id (tag device_id VNone ex) = VNone.
Proof. unfold action_of, tag. simpl. apply update_device_action_clears. Qed.

(** A [finalize] that keeps the tag leaves it as the executor set it. *)
Lemma call_finalize_action (config_module : py_module) (success : bool)
    (ex : Executor) :
  (forall a, config_module !! "finalize" = Some a -> keeps_tag device_id a) ->
  action_of device_id (call_finalize device_id config_module success ex)
  = action_of device_id ex.
Proof.
  intros Hfin. unfold call_finalize.
  destruct (config_module !! "finalize") as [a|]; [|reflexivity].
  pose proof (Hfin a eq_refl
                {| positional := [VStr device_id; VBool success];
                   keywords := [] |} (device_manager ex)) as Hkeep.
  destruct (call a _ (device_manager ex)) as [r dm']. exact Hkeep.
Qed.

(** However the step loop ends, the run leaves the tag empty. *)
Lemma execute_steps_clears_tag (config_module : py_module)
    (config : list (string * pyval)) (steps : list pyval) (ex : Executor) :
  (forall a, config_module !! "finalize" = Some a -> keeps_tag device_id a) ->
  action_of device_id
    (snd (execute_steps env device_id config_module config steps ex)) = VNone.
Proof.
  intros Hfin. unfold execute_steps.
  destruct (get_default "enabled_steps" (VDict []) config);
    try (simpl; apply tag_clears).
  destruct (run_steps env device_id config_module d 0 steps ex)
    as [[success| |msg] ex']; simpl; try apply tag_clears.
  change (action_of device_id
            (call_finalize device_id config_module success
               (tag device_id VNone ex')) = VNone).
  rewrite call_finalize_action by exact Hfin. apply tag_clears.
Qed.

Section Operations.
Import DeviceManager.
Variable adb : AdbManager.
Variable dm : DeviceManager.
Hypothesis connected_now : is_connected device_id dm = true.

Lemma connected_known : known device_id dm = true.
Proof.
  unfold known, is_connected in *.
  destruct (devices dm !! device_id); [|discriminate].
  apply bool_decide_eq_true_2. eauto.
Qed.

(** The operations of the manager that set the tag reset it before they
    return, whether the bridge call returns or raises. *)
Lemma operations_clear_tag (x y : Z) (text package_name : string)
    (command : list string) (label : option string) (shell_label : string) :
  shell_label <> "" ->
  DeviceManager.action_of device_id
    (snd (input_tap adb device_id x y label dm)) = VNone /\
  DeviceManager.action_of device_id
    (snd (input_text adb device_id text label dm)) = VNone /\
  DeviceManager.action_of device_id
    (snd (restart_app adb device_id package_name label dm)) = VNone /\
  DeviceManager.action_of device_id
    (snd (take_screenshot adb device_id dm)) = VNone /\
  DeviceManager.action_of device_id
    (snd (execute_adb_command adb device_id command (Some shell_label) dm))
    = VNone.
Proof.
  intros Hlabel.
  unfold input_tap, input_text, restart_app, take_screenshot,
    execute_adb_command.
  rewrite connected_known, connected_now. simpl negb. cbv iota.
  repeat split.
  - destruct (adb_input_tap adb device_id x y); apply update_device_action_clears.
  - destruct (adb_input_text adb device_id text);
      apply update_device_action_clears.
  - destruct (adb_restart_app adb device_id package_name);
      apply update_device_action_clears.
  - destruct (adb_take_screenshot adb device_id) as [p|msg];
      [destruct (Str.truthy_opt p)|]; apply update_device_action_clears.
  - apply String.eqb_neq in Hlabel. simpl. rewrite Hlabel. simpl.
    destruct (adb_execute_command adb device_id command);
      apply update_device_action_clears.
Qed.

End Operations.

(** C8 (as the code has it).  The tag is reset when the operation that set
    it returns.  A script run that gets to its steps leaves the tag of the
    device empty on every way out of the step loop: all steps done, a step
    failing or raising, the run stopped, the run cancelled at the pause
    gate; [finalize] runs after the reset and is taken not to set the tag.
    The tap, text input, application restart, screenshot and labelled adb
    command of the device manager, on a connected device, leave the tag
    empty whether the bridge call returns or raises. *)
Theorem action_tag_cleared_when_operation_returns (config_name : string)
    (device_logger : option unit) (ex : Executor) (e : ConfigLoader.Entry)
    (step : pyval) (steps : list pyval)
    (adb : DeviceManager.AdbManager) (x y : Z) (text package_name : string)
    (command : list string) (label : option string) (shell_label : string) :
  fst (ConfigLoader.load_config (fs env) config_name (config_loader ex)) = Some e ->
  fst (ConfigLoader.validate_config (fs env) config_name (config_loader ex)) = true ->
  assoc "steps" (ConfigLoader.config e) = Some (VList (step :: steps)) ->
  DeviceManager.is_connected device_id (device_manager ex) = true ->
  (forall a, ConfigLoader.module e !! "initialize" = Some a -> succeeds a) ->
  (forall a, ConfigLoader.module e !! "finalize" = Some a ->
             keeps_tag device_id a) ->
  shell_label <> "" ->
  let dm := device_manager ex in
  action_of device_id
    (snd (execute_config env device_id config_name device_logger ex)) = VNone /\
  DeviceManager.action_of device_id
    (snd (DeviceManager.input_tap adb device_id x y label dm)) = VNone /\
  DeviceManager.action_of device_id
    (snd (DeviceManager.input_text adb device_id text label dm)) = VNone /\
  DeviceManager.action_of device_id
    (snd (DeviceManager.restart_app adb device_id package_name label dm))
    = VNone /\
  DeviceManager.action_of device_id
    (snd (DeviceManager.take_screenshot adb device_id dm)) = VNone /\
  DeviceManager.action_of device_id
    (snd (DeviceManager.execute_adb_command adb device_id command
            (Some shell_label) dm)) = VNone.
Proof.
  intros Hload Hvalid Hsteps Hconn Hinit Hfin Hlabel dm. split.
  - destruct (execute_config_runs_steps config_name device_logger ex e
                step steps Hload Hvalid Hsteps Hconn Hinit) as [ex1 ->].
    apply execute_steps_clears_tag, Hfin.
  - apply operations_clear_tag; assumption.
Qed.

End Run.

(** The script without steps, run on the connected device of the sample
    roster. *)
Lemma execute_config_empty_steps_witness :
  let fs := ConfigLoader.one_file "configs/demo.py"
              ActionExecutor.no_steps_module in
  DeviceManager.is_connected "127.0.0.1:5555" ActionExecutor.one_connected
    = true /\
  fst (ActionExecutor.execute_config (ActionExecutor.quiet fs)
         "127.0.0.1:5555" "demo" (Some tt)
         (ActionExecutor.fresh ConfigLoader.empty_loader)) = false.
Proof.
  intros fs. split; [reflexivity|].
  eapply (execute_config_empty_steps (ActionExecutor.quiet fs)
            "127.0.0.1:5555" "demo" (Some tt)
            (ActionExecutor.fresh ConfigLoader.empty_loader)).
  - reflexivity.
  - reflexivity.
  - reflexivity.
  - reflexivity.
  - intros a Ha. vm_compute in Ha. injection Ha as <-.
    intros args dm. exists (Py.VBool true), dm. split; reflexivity.
Defined.

(** C2 (as stated) fails: the script [demo] has an empty [steps] list, an
    [actions] list and both hooks, each answering [True]; the device is
    connected; [execute_config] calls [initialize] and [finalize] and no
    handler, and returns [False], not [True]. *)
Lemma execute_config_empty_steps_is_not_a_success :
  let fs := ConfigLoader.one_file "configs/demo.py"
              ActionExecutor.no_steps_module in
  let ex := ActionExecutor.fresh ConfigLoader.empty_loader in
  let r := ActionExecutor.execute_config (ActionExecutor.quiet fs)
             "127.0.0.1:5555" "demo" (Some tt) ex in
  fst (ConfigLoader.validate_config fs "demo" ConfigLoader.empty_loader) = true /\
  DeviceManager.device_connected "127.0.0.1:5555"
    (ActionExecutor.device_manager ex) = true /\
  ActionExecutor.calls (snd r)
    = [ActionExecutor.CalledInitialize; ActionExecutor.CalledFinalize false] /\
  fst r <> true.
Proof.
  repeat split; try (vm_compute; reflexivity). vm_compute. discriminate.
Qed.

(** The script of two steps, run on the connected device of the sample
    roster, and a tap on that device. *)
Lemma action_tag_cleared_witness :
  let fs := ConfigLoader.one_file "configs/demo.py"
              ActionExecutor.two_steps_module in
  DeviceManager.is_connected "127.0.0.1:5555" ActionExecutor.one_connected
    = true /\
  ActionExecutor.action_of "127.0.0.1:5555"
    (snd (ActionExecutor.execute_config (ActionExecutor.quiet fs)
            "127.0.0.1:5555" "demo" (Some tt)
            (ActionExecutor.fresh ConfigLoader.empty_loader))) = Py.VNone.
Proof.
  intros fs. split; [reflexivity|].
  eapply (action_tag_cleared_when_operation_returns (ActionExecutor.quiet fs)
            "127.0.0.1:5555" "demo" (Some tt)
            (ActionExecutor.fresh ConfigLoader.empty_loader) _ _ _
            DeviceManager.adb_all_ok 100 200 "text" "com.example.app"
            ["shell"; "ls"] None "listing").
  - reflexivity.
  - reflexivity.
  - reflexivity.
  - reflexivity.
  - intros a Ha. vm_compute in Ha. discriminate.
  - intros a Ha. vm_compute in Ha. discriminate.
  - discriminate.
Defined.

(** C8 (as stated) fails: in the script of two steps, the first step runs
    its handler, which answers [True] and leaves the manager alone; the step
    is complete and the loop goes on to the next one, and the tag of the
    device is the description of the first step, not empty. *)
Lemma action_tag_kept_after_successful_step :
  let ex := ActionExecutor.fresh ConfigLoader.empty_loader in
  let first :=
    Py.VDict [("name", Py.VStr "first"); ("description", Py.VStr "first step");
              ("action", Py.VStr "nop")] in
  let r := ActionExecutor.run_step (ActionExecutor.quiet ConfigLoader.no_files)
             "127.0.0.1:5555" ActionExecutor.two_steps_module [] 0 first ex in
  ActionExecutor.two_steps !! 0%nat = Some first /\
  ActionExecutor.action_of "127.0.0.1:5555" ex = Py.VNone /\
  fst r = ActionExecutor.Next /\
  ActionExecutor.calls (snd r) = [ActionExecutor.CalledHandler "nop"] /\
  ActionExecutor.action_of "127.0.0.1:5555" (snd r) = Py.VStr "first step" /\
  ActionExecutor.action_of "127.0.0.1:5555" (snd r) <> Py.VNone.
Proof.
  repeat split; try (vm_compute; reflexivity). vm_compute. discriminate.
Qed.

(** * Further properties *)

(** ** Device manager: the roster after loading *)

Section RosterRecords.
Import DeviceManager.

Lemma load_line_fresh (acc : gmap string Device * gset string) (line : string) :
  (forall device_id d, fst acc !! device_id = Some d ->
                       freshly_loaded device_id d) ->
  forall device_id d, fst (load_line acc line) !! device_id = Some d ->
                      freshly_loaded device_id d.
Proof.
  intros Hacc. unfold load_line.
  destruct (String.eqb (Str.strip line) "" || Str.startswith "#" (Str.strip line));
    [exact Hacc|].
  destruct (Str.split ":" (Str.strip line)) as [|ip [|port rest]];
    [exact Hacc | exact Hacc |].
  simpl. intros device_id d.
  destruct (decide (ip +:+ ":" +:+ port = device_id)) as [<-|Hne].
  - rewrite lookup_insert_eq. intros [= <-]. repeat split.
  - rewrite lookup_insert_ne by exact Hne. apply Hacc.
Qed.

Lemma foldl_load_line_fresh (lines : list string)
    (acc : gmap string Device * gset string) :
  (forall k d, fst acc !! k = Some d -> freshly_loaded k d) ->
  forall k d, fst (foldl load_line acc lines) !! k = Some d ->
              freshly_loaded k d.
Proof.
  revert acc. induction lines as [|line lines IH]; intros acc Hacc; simpl.
  - exact Hacc.
  - apply IH. apply load_line_fresh. exact Hacc.
Qed.


(** The order and the map are built side by side. *)
Lemma load_order_line_keys (order : list string)
    (acc : gmap string Device * gset string) (line : string) :
  NoDup order ->
  (forall k, k ∈ order <-> is_Some (fst acc !! k)) ->
  NoDup (load_order_line order line) /\
  (forall k, k ∈ load_order_line order line
             <-> is_Some (fst (load_line acc line) !! k)).
Proof.
  intros Hnd Hkeys. unfold load_order_line, load_line.
  destruct (String.eqb (Str.strip line) "" || Str.startswith "#" (Str.strip line));
    [split; assumption|].
  destruct (Str.split ":" (Str.strip line)) as [|ip [|port rest]];
    [split; assumption | split; assumption |].
  simpl. set (device_id := ip +:+ ":" +:+ port).
  destruct (bool_decide (device_id ∈ order)) eqn:Hin.
  - apply bool_decide_eq_true in Hin. split; [exact Hnd|].
    intros k. rewrite lookup_insert_is_Some, Hkeys.
    split; [intros H; destruct (decide (device_id = k)); [left|right]; done|].
    intros [<- | [_ H]]; [apply Hkeys, Hin | exact H].
  - apply bool_decide_eq_false in Hin. split.
    + apply NoDup_app. repeat split; [exact Hnd | | apply NoDup_singleton].
      intros x Hx Hx'. apply list_elem_of_singleton in Hx'. subst x. done.
    + intros k. rewrite elem_of_app, list_elem_of_singleton,
        lookup_insert_is_Some, Hkeys.
      split.
      * intros [H | ->]; [|left; reflexivity].
        destruct (decide (device_id = k)); [left|right]; done.
      * intros [<- | [_ H]]; [right; reflexivity | left; exact H].
Qed.

(** The device map has one record for each distinct id of the roster
    lines: the ids in the order of their first appearance hold no id twice
    and are exactly the keys of the map after [load_devices]. *)
Theorem load_devices_one_record_per_id (lines : list string)
    (dm : DeviceManager) :
  NoDup (load_order lines) /\
  forall device_id,
    device_id ∈ load_order lines <->
    is_Some (devices (snd (load_devices (Some (Returned lines)) dm)) !! device_id).
Proof.
  rewrite load_devices_devices. unfold load_order.
  assert (Hgen : forall (order : list string)
                        (acc : gmap string Device * gset string),
    NoDup order ->
    (forall k, k ∈ order <-> is_Some (fst acc !! k)) ->
    NoDup (foldl load_order_line order lines) /\
    (forall k, k ∈ foldl load_order_line order lines
               <-> is_Some (fst (foldl load_line acc lines) !! k))).
  { induction lines as [|line lines' IH]; intros order acc Hnd Hkeys; simpl.
    - split; assumption.
    - destruct (load_order_line_keys order acc line Hnd Hkeys) as [Hnd' Hk'].
      apply IH; assumption. }
  apply Hgen; [apply NoDup_nil_2|].
  intros k. simpl. rewrite lookup_empty. split.
  - intros H. inversion H.
  - intros [x Hx]. discriminate.
Qed.


End RosterRecords.



(** ** Device manager: connecting, disconnecting, sweeping *)

Section Frames.
Import DeviceManager.
Variable adb : AdbManager.

Lemma update_device_other (f : Device -> Device) (device_id other : string)
    (dm : DeviceManager) :
  other <> device_id ->
  devices (update_device device_id f dm) !! other = devices dm !! other.
Proof. intros Hne. unfold update_device. simpl. apply lookup_alter_ne. congruence. Qed.

Lemma update_device_is_Some (f : Device -> Device) (device_id k : string)
    (dm : DeviceManager) :
  is_Some (devices (update_device device_id f dm) !! k)
  <-> is_Some (devices dm !! k).
Proof.
  unfold update_device. simpl.
  destruct (decide (device_id = k)) as [->|Hne].
  - rewrite lookup_alter_eq. rewrite fmap_is_Some. reflexivity.
  - rewrite lookup_alter_ne by exact Hne. reflexivity.
Qed.

(** X3.  [connect_device] works on the record of its device only: the
    record of every other id is as before, and no id is added to or removed
    from the roster, whatever adb answers. *)
Theorem connect_device_touches_one_record (now : Q) (device_id other : string)
    (dm : DeviceManager) :
  other <> device_id ->
  let dm' := snd (connect_device adb now device_id dm) in
  devices dm' !! other = devices dm !! other /\
  forall k, is_Some (devices dm' !! k) <-> is_Some (devices dm !! k).
Proof.
  intros Hne. unfold connect_device.
  destruct (negb (known device_id dm)); [split; reflexivity|].
  destruct (adb_connect_device adb device_id) as [[|]|msg];
    [destruct (adb_get_device_info adb device_id) as [i|msg]| |]; cbn [snd];
    (split; [rewrite !update_device_other by exact Hne; reflexivity
            | intros k; rewrite !update_device_is_Some; reflexivity]).
Qed.

(** [disconnect_device] leaves its device disconnected. *)
Lemma disconnect_device_disconnects (device_id : string) (dm : DeviceManager) :
  is_connected device_id (snd (disconnect_device adb device_id dm)) = false.
Proof.
  unfold disconnect_device, known, is_connected.
  destruct (devices dm !! device_id) as [d|] eqn:Hd.
  - rewrite bool_decide_eq_true_2 by eauto. simpl.
    destruct (adb_disconnect_device adb device_id); simpl;
      rewrite lookup_alter_eq, Hd; reflexivity.
  - rewrite bool_decide_eq_false_2 by (intros [x Hx]; discriminate). simpl.
    rewrite Hd. reflexivity.
Qed.

(** [disconnect_device] connects nothing. *)
Lemma disconnect_device_keeps_disconnected (device_id other : string)
    (dm : DeviceManager) :
  is_connected other dm = false ->
  is_connected other (snd (disconnect_device adb device_id dm)) = false.
Proof.
  intros H. destruct (decide (other = device_id)) as [->|Hne].
  - apply disconnect_device_disconnects.
  - unfold disconnect_device.
    destruct (negb (known device_id dm)); [exact H|].
    unfold is_connected in *.
    destruct (adb_disconnect_device adb device_id); simpl;
      rewrite lookup_alter_ne by congruence; exact H.
Qed.

Lemma disconnect_all_fold (device_ids : list string) (acc : Z * DeviceManager) :
  let r := foldl (fun acc device_id =>
                    let '(ok, dm') := disconnect_device adb device_id (snd acc) in
                    (if ok then fst acc + 1 else fst acc, dm'))
                 acc device_ids in
  fst acc <= fst r <= fst acc + Z.of_nat (length device_ids) /\
  (forall k, is_connected k (snd acc) = false -> is_connected k (snd r) = false) /\
  (forall k, k ∈ device_ids -> is_connected k (snd r) = false).
Proof.
  revert acc. induction device_ids as [|device_id ids IH]; intros acc; simpl.
  - repeat split; [lia | lia | auto |]. intros k Hk. inversion Hk.
  - pose proof (disconnect_device_disconnects device_id (snd acc)) as Hd.
    pose proof (fun k => disconnect_device_keeps_disconnected device_id k (snd acc))
      as Hk.
    destruct (disconnect_device adb device_id (snd acc)) as [ok dm'].
    simpl in Hd, Hk.
    destruct (IH (if ok then fst acc + 1 else fst acc, dm')) as (Hc & Hkeep & Hall).
    simpl in Hc, Hkeep, Hall.
    repeat split.
    + destruct ok; lia.
    + destruct ok; lia.
    + intros k Hf. apply Hkeep, Hk, Hf.
    + intros k Hin. apply elem_of_cons in Hin as [->|Hin].
      * apply Hkeep, Hd.
      * apply Hall, Hin.
Qed.

Lemma filter_none {A : Type} (P : A -> Prop) `{forall x, Decision (P x)}
    (l : list A) :
  (forall x, x ∈ l -> ~ P x) -> filter P l = [].
Proof.
  induction l as [|x l IH]; intros Hl; [reflexivity|].
  rewrite filter_cons_False by (apply Hl, list_elem_of_here).
  apply IH. intros y Hy. apply Hl, list_elem_of_further, Hy.
Qed.

(** X4.  After [disconnect_all] none of the devices it walked is connected,
    whatever adb answers for each of them, and the number it returns lies
    between 0 and the number of devices. *)
Theorem disconnect_all_leaves_none_connected (device_ids : list string)
    (dm : DeviceManager) :
  let r := disconnect_all adb device_ids dm in
  get_connected_devices device_ids (snd r) = [] /\
  0 <= fst r <= Z.of_nat (length device_ids).
Proof.
  intros r. subst r. unfold disconnect_all.
  destruct (disconnect_all_fold device_ids (0, dm)) as (Hc & _ & Hall).
  simpl in Hc. split; [|lia].
  unfold get_connected_devices. apply filter_none.
  intros k Hk. rewrite (Hall k Hk). discriminate.
Qed.

(** [connect_each] works on the records of the devices it is given. *)
Lemma connect_each_frame (now : string -> Q) (device_ids : list string)
    (acc : Z * DeviceManager) (other : string) :
  other ∉ device_ids ->
  let r := foldl (fun acc device_id =>
                    let '(ok, dm') :=
                      connect_device adb (now device_id) device_id (snd acc) in
                    (if ok then fst acc + 1 else fst acc, dm'))
                 acc device_ids in
  devices (snd r) !! other = devices (snd acc) !! other /\
  fst acc <= fst r <= fst acc + Z.of_nat (length device_ids).
Proof.
  revert acc. induction device_ids as [|device_id ids IH]; intros acc Hnot; simpl.
  - split; [reflexivity | lia].
  - apply not_elem_of_cons in Hnot as [Hne Hnot].
    pose proof (connect_device_touches_one_record (now device_id) device_id
                  other (snd acc) Hne) as [Hother _].
    destruct (connect_device adb (now device_id) device_id (snd acc))
      as [ok dm'].
    simpl in Hother.
    destruct (IH (if ok then fst acc + 1 else fst acc, dm') Hnot) as [Hd Hc].
    simpl in Hd, Hc. split; [congruence|]. destruct ok; lia.
Qed.

(** X5.  [connect_batch] touches no device outside its batch: with the
    batch [batch] at hand, the record of every id that is not in it is as
    before, and the two numbers returned are the successes, at most the
    size of the batch, and that size. *)
Theorem connect_batch_touches_its_batch_only (now : string -> Q)
    (batch_size : Z) (device_ids batch : list string) (batch_index : Z)
    (dm : DeviceManager) (other : string) :
  batch_devices batch_size device_ids batch_index = Some batch ->
  other ∉ batch ->
  let r := connect_batch adb now batch_size device_ids batch_index dm in
  devices (snd r) !! other = devices dm !! other /\
  snd (fst r) = Z.of_nat (length batch) /\
  0 <= fst (fst r) <= Z.of_nat (length batch).
Proof.
  intros Hb Hnot. unfold connect_batch. rewrite Hb.
  unfold connect_each.
  destruct (connect_each_frame now batch (0, dm) other Hnot) as [Hd Hc].
  destruct (foldl _ (0, dm) batch) as [count dm']. simpl in *.
  repeat split; [exact Hd | lia | lia].
Qed.


(** X7.  After [update_device_statuses], when adb answers the query, a
    device of the roster is connected exactly when adb lists it in the
    state [device]; the roster has the same ids as before. *)
Theorem update_device_statuses_follows_adb
    (adb_devices : list (string * string)) (dm : DeviceManager)
    (device_id : string) :
  adb_get_devices adb = Returned adb_devices ->
  is_Some (devices dm !! device_id) ->
  let dm' := update_device_statuses adb dm in
  (is_connected device_id dm' = true
   <-> device_states adb_devices !! device_id = Some "device") /\
  forall k, is_Some (devices dm' !! k) <-> is_Some (devices dm !! k).
Proof.
  intros Hg [d Hd]. unfold update_device_statuses. rewrite Hg. simpl. split.
  - unfold is_connected. simpl. rewrite map_lookup_imap, Hd. simpl.
    unfold sweep_device.
    destruct (device_states adb_devices !! device_id) as [state|] eqn:Hs.
    + destruct (String.eqb state "device") eqn:He.
      * apply String.eqb_eq in He. subst state. simpl. split; reflexivity.
      * apply String.eqb_neq in He. simpl. split; [discriminate|].
        intros [= ->]. congruence.
    + simpl. split; discriminate.
  - intros k. rewrite map_lookup_imap.
    destruct (devices dm !! k) as [dk|]; simpl; split; eauto.
Qed.

End Frames.

(** Connecting the second device of the sample roster leaves the first
    as it is. *)
Lemma connect_device_touches_one_record_witness :
  "10.0.0.1:5555" <> "10.0.0.2:5555" /\
  DeviceManager.devices
    (snd (DeviceManager.connect_device DeviceManager.adb_all_ok 7
            "10.0.0.2:5555" DeviceManager.three_devices)) !! "10.0.0.1:5555"
  = DeviceManager.devices DeviceManager.three_devices !! "10.0.0.1:5555".
Proof.
  assert (H : "10.0.0.1:5555" <> "10.0.0.2:5555") by discriminate.
  split; [exact H|].
  exact (proj1 (connect_device_touches_one_record DeviceManager.adb_all_ok 7
                  "10.0.0.2:5555" "10.0.0.1:5555"
                  DeviceManager.three_devices H)).
Defined.

(** The second batch of size two of the sample roster is its third
    device; connecting it leaves the first device as it is. *)
Lemma connect_batch_touches_its_batch_only_witness :
  DeviceManager.batch_devices 2
    ["10.0.0.1:5555"; "10.0.0.2:5555"; "10.0.0.3:5555"] 1
  = Some ["10.0.0.3:5555"] /\
  DeviceManager.devices
    (snd (DeviceManager.connect_batch DeviceManager.adb_all_ok (fun _ => 7%Q) 2
            ["10.0.0.1:5555"; "10.0.0.2:5555"; "10.0.0.3:5555"] 1
            DeviceManager.three_devices)) !! "10.0.0.1:5555"
  = DeviceManager.devices DeviceManager.three_devices !! "10.0.0.1:5555".
Proof.
  assert (H : DeviceManager.batch_devices 2
                ["10.0.0.1:5555"; "10.0.0.2:5555"; "10.0.0.3:5555"] 1
              = Some ["10.0.0.3:5555"]) by reflexivity.
  split; [exact H|].
  refine (proj1 (connect_batch_touches_its_batch_only DeviceManager.adb_all_ok
                   (fun _ => 7%Q) 2 _ _ 1 DeviceManager.three_devices
                   "10.0.0.1:5555" H _)).
  intros Hin. apply list_elem_of_singleton in Hin. discriminate.
Defined.


(** With adb listing the first device of the sample roster in the state
    [device], the status update finds it connected. *)
Lemma update_device_statuses_follows_adb_witness :
  is_Some (DeviceManager.devices DeviceManager.three_devices
             !! "10.0.0.1:5555") /\
  (DeviceManager.is_connected "10.0.0.1:5555"
     (DeviceManager.update_device_statuses
        (DeviceManager.adb_listing [("10.0.0.1:5555", "device")])
        DeviceManager.three_devices) = true
   <-> DeviceManager.device_states [("10.0.0.1:5555", "device")]
         !! "10.0.0.1:5555" = Some "device").
Proof.
  assert (H : is_Some (DeviceManager.devices DeviceManager.three_devices
                         !! "10.0.0.1:5555"))
    by (vm_compute; eexists; reflexivity).
  split; [exact H|].
  exact (proj1 (update_device_statuses_follows_adb
                  (DeviceManager.adb_listing [("10.0.0.1:5555", "device")])
                  [("10.0.0.1:5555", "device")]
                  DeviceManager.three_devices "10.0.0.1:5555" eq_refl H)).
Defined.

(** ** Device manager: batches *)

Section Batches.
Import DeviceManager.

(** A slice with bounds that are not negative is a [take] of a [drop]. *)
Lemma slice_take_drop {A : Type} (l : list A) (a b : Z) :
  0 <= a <= b ->
  ImageProcessor.slice l a b = take (Z.to_nat (b - a)) (drop (Z.to_nat a) l).
Proof.
  intros Hab. unfold ImageProcessor.slice, ImageProcessor.slice_bound.
  destruct (a <? 0) eqn:Ea; [lia|]. destruct (b <? 0) eqn:Eb; [lia|].
  destruct (Z_le_gt_dec (Z.of_nat (length l)) a) as [Hge|Hlt].
  - rewrite !drop_ge by lia. rewrite !take_nil. reflexivity.
  - replace (Z.min a (Z.of_nat (length l))) with a by lia.
    destruct (Z_le_gt_dec (Z.of_nat (length l)) b) as [Hbge|Hblt].
    + rewrite !take_ge; [reflexivity | |]; rewrite length_drop; lia.
    + replace (Z.min b (Z.of_nat (length l))) with b by lia. reflexivity.
Qed.

Lemma range_count_covers (total batch_size : Z) :
  0 <= total -> 0 < batch_size ->
  total <= Z.of_nat (PyList.range_count total batch_size) * batch_size /\
  (forall k : nat, (k < PyList.range_count total batch_size)%nat
                   <-> Z.of_nat k * batch_size < total).
Proof.
  intros Ht Hb. unfold PyList.range_count.
  set (q := (total + batch_size - 1) / batch_size).
  assert (Hq : 0 <= q) by (apply Z.div_pos; lia).
  assert (Hlo : q * batch_size <= total + batch_size - 1)
    by (subst q; rewrite Z.mul_comm; apply Z.mul_div_le; lia).
  assert (Hhi : total + batch_size - 1 < (q + 1) * batch_size).
  { subst q. pose proof (Z.mod_pos_bound (total + batch_size - 1) batch_size Hb).
    pose proof (Z.div_mod (total + batch_size - 1) batch_size). nia. }
  rewrite Z2Nat.id by lia. split; [nia|].
  intros k. split; intros H.
  - assert (Z.of_nat k < q) by lia. nia.
  - assert (Z.of_nat k < q) by nia. lia.
Qed.

Lemma concat_batches (device_ids : list string) (size : nat) (n : nat) :
  concat (map (fun k => take size (drop (k * size) device_ids)) (seq 0 n))
  = take (n * size) device_ids.
Proof.
  induction n as [|n IH]; [reflexivity|].
  rewrite seq_S, map_app, concat_app, IH. simpl. rewrite app_nil_r.
  rewrite take_take_drop. f_equal. lia.
Qed.

Lemma batches_as_take_drop (batch_size : Z) (device_ids : list string) (n : nat) :
  0 < batch_size ->
  map (fun k => let i := Z.of_nat k * batch_size in
                ImageProcessor.slice device_ids i (i + batch_size)) (seq 0 n)
  = map (fun k => take (Z.to_nat batch_size)
                    (drop (k * Z.to_nat batch_size) device_ids)) (seq 0 n).
Proof.
  intros Hb. apply map_ext. intros k. simpl.
  rewrite slice_take_drop by nia. f_equal; [f_equal; lia|]. f_equal. nia.
Qed.

(** X8.  With a positive batch size, [get_device_batches] cuts the roster
    into consecutive batches: put end to end the batches give the roster
    back, in its order, and every batch has at least one and at most
    [batch_size] devices. *)
Theorem get_device_batches_partition (batch_size : Z)
    (device_ids : list string) :
  0 < batch_size ->
  exists batches,
    get_device_batches batch_size device_ids = Returned batches /\
    concat batches = device_ids /\
    Forall (fun b : list string =>
              0 < Z.of_nat (length b) <= batch_size) batches.
Proof.
  intros Hb. unfold get_device_batches.
  destruct (batch_size =? 0) eqn:E0; [lia|].
  destruct (batch_size <? 0) eqn:E1; [lia|].
  eexists. split; [reflexivity|].
  destruct (range_count_covers (Z.of_nat (length device_ids)) batch_size)
    as [Hcover Hlt]; [lia | lia |].
  rewrite batches_as_take_drop by exact Hb. split.
  - rewrite concat_batches. apply take_ge. nia.
  - apply Forall_forall. intros b Hin.
    apply list_elem_of_In, in_map_iff in Hin as (k & <- & Hk).
    apply in_seq in Hk. rewrite length_take, length_drop.
    assert (Z.of_nat k * batch_size < Z.of_nat (length device_ids))
      by (apply Hlt; lia).
    nia.
Qed.

(** X9.  [connect_batch] and [get_device_batches] agree on the batches:
    for a positive batch size and an index that is not negative, the batch
    [connect_batch] works on is the batch of that index in the list of
    [get_device_batches], and there is none when the index is past the
    last batch. *)
Theorem connect_batch_agrees_with_get_device_batches (batch_size : Z)
    (device_ids : list string) (batch_index : Z) :
  0 < batch_size -> 0 <= batch_index ->
  exists batches,
    get_device_batches batch_size device_ids = Returned batches /\
    batch_devices batch_size device_ids batch_index
    = batches !! Z.to_nat batch_index.
Proof.
  intros Hb Hi. unfold get_device_batches.
  destruct (batch_size =? 0) eqn:E0; [lia|].
  destruct (batch_size <? 0) eqn:E1; [lia|].
  eexists. split; [reflexivity|].
  destruct (range_count_covers (Z.of_nat (length device_ids)) batch_size)
    as [_ Hlt]; [lia | lia |].
  specialize (Hlt (Z.to_nat batch_index)). rewrite Z2Nat.id in Hlt by lia.
  rewrite list_lookup_fmap. unfold batch_devices.
  destruct (Z.of_nat (length device_ids) <=? batch_index * batch_size) eqn:Ele.
  - rewrite lookup_seq_ge; [reflexivity|]. 
    destruct (Nat.le_gt_cases
                (PyList.range_count (Z.of_nat (length device_ids)) batch_size)
                (Z.to_nat batch_index)) as [H|H]; [exact H|].
    apply Hlt in H. lia.
  - rewrite lookup_seq_lt by (apply Hlt; lia). simpl.
    rewrite Z2Nat.id by lia. f_equal.
    rewrite !slice_take_drop by nia.
    set (rest := drop (Z.to_nat (batch_index * batch_size)) device_ids).
    assert (Hrest : Z.of_nat (length rest)
                    = Z.of_nat (length device_ids) - batch_index * batch_size).
    { subst rest. rewrite length_drop. lia. }
    destruct (Z_le_gt_dec (batch_index * batch_size + batch_size)
                (Z.of_nat (length device_ids))) as [Hin|Hout].
    + rewrite Z.min_l by lia. reflexivity.
    + rewrite Z.min_r by lia. rewrite !take_ge by lia. reflexivity.
Qed.

End Batches.

(** Three devices in batches of two. *)
Lemma get_device_batches_partition_witness :
  0 < 2 /\
  exists batches,
    DeviceManager.get_device_batches 2
      ["10.0.0.1:5555"; "10.0.0.2:5555"; "10.0.0.3:5555"] = Returned batches /\
    concat batches = ["10.0.0.1:5555"; "10.0.0.2:5555"; "10.0.0.3:5555"] /\
    Forall (fun b : list string => 0 < Z.of_nat (length b) <= 2) batches.
Proof.
  assert (H : 0 < 2) by lia.
  split; [exact H|].
  exact (get_device_batches_partition 2
           ["10.0.0.1:5555"; "10.0.0.2:5555"; "10.0.0.3:5555"] H).
Defined.

(** The batch of index one of three devices in batches of two. *)
Lemma connect_batch_agrees_with_get_device_batches_witness :
  0 < 2 /\ 0 <= 1 /\
  exists batches,
    DeviceManager.get_device_batches 2
      ["10.0.0.1:5555"; "10.0.0.2:5555"; "10.0.0.3:5555"] = Returned batches /\
    DeviceManager.batch_devices 2
      ["10.0.0.1:5555"; "10.0.0.2:5555"; "10.0.0.3:5555"] 1
    = batches !! Z.to_nat 1.
Proof.
  assert (H : 0 < 2) by lia.
  assert (H' : 0 <= 1) by lia.
  split; [exact H|]. split; [exact H'|].
  exact (connect_batch_agrees_with_get_device_batches 2
           ["10.0.0.1:5555"; "10.0.0.2:5555"; "10.0.0.3:5555"] 1 H H').
Defined.

(** ** Bridge client: retries, escaping, the screenshot *)

Section Retries.
Import ADBManager.
Variable answers : nat -> attempt.

Lemma attempt_loop_decisive (fuel i k : nat) :
  (k < fuel)%nat ->
  decisive (answers (i + k)) = true ->
  (forall j, (j < k)%nat -> decisive (answers (i + j)) = false) ->
  attempt_loop fuel i answers = (Some (verdict (answers (i + k))), S (i + k)).
Proof.
  revert i k. induction fuel as [|fuel IH]; intros i k Hk Hdec Hbefore; [lia|].
  destruct k as [|k].
  - rewrite Nat.add_0_r in *. simpl. unfold decisive, verdict in *.
    destruct (answers i) as [rc out err| |msg]; try discriminate.
    destruct (rc =? 0); [reflexivity|]. simpl in Hdec. rewrite Hdec.
    reflexivity.
  - pose proof (Hbefore 0%nat ltac:(lia)) as H0. rewrite Nat.add_0_r in H0.
    assert (Hrec : attempt_loop fuel (S i) answers
                   = (Some (verdict (answers (i + S k))), S (i + S k))).
    { replace (i + S k)%nat with (S i + k)%nat by lia.
      apply IH; [lia | |].
      - replace (S i + k)%nat with (i + S k)%nat by lia. exact Hdec.
      - intros j Hj. replace (S i + j)%nat with (i + S j)%nat by lia.
        apply Hbefore. lia. }
    simpl. unfold decisive in H0.
    destruct (answers i) as [rc out err| |msg]; try exact Hrec.
    apply orb_false_elim in H0 as [-> ->]. exact Hrec.
Qed.

Lemma attempt_loop_exhausted (fuel i : nat) :
  (forall j, (j < fuel)%nat -> decisive (answers (i + j)) = false) ->
  attempt_loop fuel i answers = (None, (i + fuel)%nat).
Proof.
  revert i. induction fuel as [|fuel IH]; intros i Hnone.
  - simpl. rewrite Nat.add_0_r. reflexivity.
  - pose proof (Hnone 0%nat ltac:(lia)) as H0. rewrite Nat.add_0_r in H0.
    assert (Hrec : attempt_loop fuel (S i) answers = (None, (i + S fuel)%nat)).
    { replace (i + S fuel)%nat with (S i + fuel)%nat by lia. apply IH.
      intros j Hj. replace (S i + j)%nat with (i + S j)%nat by lia.
      apply Hnone. lia. }
    simpl. unfold decisive in H0.
    destruct (answers i) as [rc out err| |msg]; try exact Hrec.
    apply orb_false_elim in H0 as [-> ->]. exact Hrec.
Qed.

Lemma attempt_loop_bound (fuel i : nat) :
  (i <= snd (attempt_loop fuel i answers) <= i + fuel)%nat.
Proof.
  revert i. induction fuel as [|fuel IH]; intros i; simpl; [lia|].
  pose proof (IH (S i)).
  destruct (answers i) as [rc out err| |msg]; try lia.
  destruct (rc =? 0); [simpl; lia|].
  destruct (device_not_found err); simpl; lia.
Qed.

(** X10.  [execute_command] returns on the first attempt that ends with an
    exit code of 0 or with a "device not found" error output: when attempt
    [k], within the retries, is the first such attempt, the call returns
    the success flag and the outputs of that attempt after [k + 1]
    attempts, whatever later attempts would have answered. *)
Theorem execute_command_first_decisive_attempt (max_retries : Z)
    (retries : option Z) (k : nat) :
  (k < Z.to_nat (match retries with Some r => r | None => max_retries end))%nat ->
  decisive (answers k) = true ->
  (forall j, (j < k)%nat -> decisive (answers j) = false) ->
  execute_command max_retries retries answers = (verdict (answers k), S k).
Proof.
  intros Hk Hdec Hbefore. unfold execute_command.
  rewrite (attempt_loop_decisive _ 0 k Hk Hdec Hbefore). reflexivity.
Qed.

(** X11.  [execute_command] makes at most [retries] attempts, none when
    [retries] is zero or negative; when no attempt within the retries is
    decisive it fails, after exactly [retries] attempts, with an empty
    output and the "failed after N attempts" error text. *)
Theorem execute_command_gives_up_after_retries (max_retries : Z)
    (retries : option Z) :
  let n := match retries with Some r => r | None => max_retries end in
  (snd (execute_command max_retries retries answers) <= Z.to_nat n)%nat /\
  ((forall j, (j < Z.to_nat n)%nat -> decisive (answers j) = false) ->
   execute_command max_retries retries answers
   = ((false, "",
       "Не удалось выполнить команду после " +:+ pretty n +:+ " попыток"),
      Z.to_nat n)).
Proof.
  intros n. subst n. unfold execute_command. split.
  - pose proof (attempt_loop_bound
                  (Z.to_nat (match retries with Some r => r | None => max_retries end))
                  0) as Hb.
    destruct (attempt_loop _ 0 answers) as [[r|] m]; simpl in *; lia.
  - intros Hnone. rewrite (attempt_loop_exhausted _ 0 Hnone). reflexivity.
Qed.

End Retries.

Section Escaping.
Import ADBManager.

Lemma contains_append_adb (c : ascii) (a b : string) :
  Str.contains c (a +:+ b) = Str.contains c a || Str.contains c b.
Proof.
  induction a as [|x a IH]; simpl; [reflexivity|].
  rewrite IH. apply orb_assoc.
Qed.

(** A replacement puts no [c] where there was none, as long as the
    replacing text has none. *)
Lemma replace_char_with_contains (c old : ascii) (new s : string) :
  Str.contains c new = false ->
  Str.contains c s = false ->
  Str.contains c (replace_char_with old new s) = false.
Proof.
  intros Hnew. induction s as [|x s IH]; simpl; [reflexivity|].
  intros H. apply orb_false_elim in H as [Hx Hs].
  rewrite contains_append_adb, (IH Hs), orb_false_r.
  destruct (Ascii.eqb x old); [exact Hnew|]. simpl. rewrite Hx. reflexivity.
Qed.

(** A replacement removes every [old], as long as the replacing text has
    none. *)
Lemma replace_char_with_removes (old : ascii) (new s : string) :
  Str.contains old new = false ->
  Str.contains old (replace_char_with old new s) = false.
Proof.
  intros Hnew. induction s as [|x s IH]; simpl; [reflexivity|].
  rewrite contains_append_adb, IH, orb_false_r.
  destruct (Ascii.eqb x old) eqn:E; [exact Hnew|]. simpl. rewrite E.
  reflexivity.
Qed.

(** A replacement leaves a text without [old] as it is. *)
Lemma replace_char_with_absent (old : ascii) (new s : string) :
  Str.contains old s = false -> replace_char_with old new s = s.
Proof.
  induction s as [|x s IH]; simpl; [reflexivity|].
  intros H. apply orb_false_elim in H as [-> Hs]. simpl. rewrite (IH Hs).
  reflexivity.
Qed.

(** X12.  The text [input_text] hands to the shell never holds a space,
    whatever the text typed; and a text without spaces, apostrophes and
    double quotes is handed over unchanged. *)
Theorem escape_text_has_no_space (text : string) :
  Str.contains " " (escape_text text) = false /\
  (Str.contains " " text = false ->
   Str.contains "'" text = false ->
   Str.contains dquote text = false ->
   escape_text text = text).
Proof.
  unfold escape_text. split.
  - apply replace_char_with_contains; [reflexivity|].
    apply replace_char_with_contains; [reflexivity|].
    apply replace_char_with_removes. reflexivity.
  - intros Hs Ha Hq.
    rewrite (replace_char_with_absent " " _ _ Hs).
    rewrite (replace_char_with_absent "'" _ _ Ha).
    apply replace_char_with_absent, Hq.
Qed.

End Escaping.

Section ScreenshotResult.
Import ADBManager.

(** X13.  [take_screenshot] returns a path exactly when the output
    directory could be made (if the path had to be made up), the capture on
    the device succeeded and the pull succeeded, whether the final [rm]
    succeeds or not; the path returned is then among the files of the
    host. *)
Theorem take_screenshot_returns_path_iff (env : Env) (cwd : string)
    (now1 now2 : Z) (device_id : string) (local_path : option string)
    (w : World) :
  let r := take_screenshot env cwd now1 now2 device_id local_path w in
  (is_Some (fst r) <->
   (generates_path local_path = true -> makedirs_ok env = true)
   /\ screencap_ok env = true /\ pull_ok env = true) /\
  (forall p, fst r = Some p -> p ∈ local_files (snd r)).
Proof.
  unfold take_screenshot, generates_path.
  destruct env as [mk sc pl rm]. simpl.
  destruct local_path as [p0|]; [destruct (String.eqb p0 "")|];
    destruct mk, sc, pl; simpl;
    (split; [split; [intros Hs | intros (H1 & H2 & H3)] | intros p Hp]);
    first [ discriminate
          | destruct Hs as [x Hx]; discriminate
          | specialize (H1 eq_refl); discriminate
          | eexists; reflexivity
          | injection Hp as <-; set_solver
          | repeat split; try reflexivity; intros; first [reflexivity | discriminate] ].
Qed.

End ScreenshotResult.

(** A command that times out once and then succeeds, with three
    retries. *)
Lemma execute_command_first_decisive_attempt_witness :
  ADBManager.decisive (ADBManager.second_try 1) = true /\
  ADBManager.execute_command 3 None ADBManager.second_try
  = ((true, "done", ""), 2%nat).
Proof.
  split; [reflexivity|].
  refine (execute_command_first_decisive_attempt ADBManager.second_try 3 None
            1 _ eq_refl _).
  - simpl. lia.
  - intros j Hj. assert (j = 0%nat) as -> by lia. reflexivity.
Defined.

(** ** Image matcher: single match, centre, region of interest *)

Section Matching.
Import ImageProcessor.

(** The point [get_template_center] gives for a match of a template
    with positive width and height lies inside the rectangle of the match:
    a tap on it hits the matched region. *)
Theorem get_template_center_inside_match (x y w h : Z) (score : Q) :
  0 < w -> 0 < h ->
  let c := get_template_center (x, y, w, h, score) in
  x <= fst c < x + w /\ y <= snd c < y + h.
Proof.
  intros Hw Hh. simpl.
  assert (0 <= w / 2 < w) by (split; [apply Z.div_pos | apply Z.div_lt]; lia).
  assert (0 <= h / 2 < h) by (split; [apply Z.div_pos | apply Z.div_lt]; lia).
  lia.
Qed.

Lemma scan_row_some (y x : Z) (row : list Q) (b : Q * (Z * Z)) :
  is_Some (scan_row y x row (Some b)).
Proof.
  revert x b. induction row as [|v row IH]; intros x b; simpl; [eauto|].
  destruct b as [bv bl]. destruct (Qlt_bool bv v); apply IH.
Qed.

Lemma scan_rows_some (y : Z) (m : ScoreMap) (b : Q * (Z * Z)) :
  is_Some (scan_rows y m (Some b)).
Proof.
  revert y b. induction m as [|row m IH]; intros y b; simpl; [eauto|].
  destruct (scan_row_some y 0 row b) as [b' ->]. apply IH.
Qed.

Lemma scan_rows_has_cell (y : Z) (m : ScoreMap) :
  is_Some (scan_rows y m None) <-> has_cell m.
Proof.
  revert y. induction m as [|row m IH]; intros y; simpl.
  - split; [intros [b Hb]; discriminate|].
    intros (row & Hin & _). inversion Hin.
  - destruct row as [|v row]; simpl.
    + rewrite IH. split.
      * intros (r & Hin & Hr). exists r. split; [right; exact Hin | exact Hr].
      * intros (r & Hin & Hr). exists r. split; [|exact Hr].
        apply elem_of_cons in Hin as [->|Hin]; [congruence | exact Hin].
    + split.
      * intros _. exists (v :: row). split; [left | discriminate].
      * intros _.
        destruct (scan_row_some y (0 + 1) row (v, (0, y))) as [b ->].
        apply scan_rows_some.
Qed.

Lemma suppress_has_cell (result : ScoreMap) (x y w h : Z) :
  has_cell result -> has_cell (suppress result x y w h).
Proof.
  intros (row & Hin & Hne). apply list_elem_of_lookup in Hin as [r Hr].
  unfold suppress, zero_slice.
  eexists. split.
  - apply list_elem_of_lookup. exists r. rewrite list_lookup_imap, Hr.
    reflexivity.
  - simpl. destruct (in_slice _ _ _ _); [|exact Hne].
    intros Hnil. apply (f_equal length) in Hnil.
    rewrite length_imap in Hnil. destruct row; [congruence | discriminate].
Qed.

(** On a map with cells the loop returns. *)
Lemma search_loop_returns (fuel : nat) (result : ScoreMap) (w h : Z) (thr : Q)
    (found : list Match) :
  has_cell result ->
  exists l, search_loop fuel result w h thr found = Returned l.
Proof.
  revert result found. induction fuel as [|fuel IH]; intros result found Hc;
    simpl; [eauto|].
  pose proof (proj2 (scan_rows_has_cell 0 result) Hc) as [[v [x y]] Hm].
  unfold minMaxLoc. rewrite Hm.
  destruct (Qlt_bool v thr); [eauto|]. apply IH, suppress_has_cell, Hc.
Qed.

(** X14.  [find_template] answers the first match of
    [find_all_templates]: for the same template, score map and threshold
    and a limit of one or more, the single match found, or none, is the
    head of the list of all matches. *)
Theorem find_template_is_first_of_all (self_threshold : Q)
    (template : option (Z * Z)) (result : outcome ScoreMap)
    (threshold : option Q) (max_results : Z) :
  0 < max_results ->
  find_template self_threshold template result threshold
  = head (find_all_templates self_threshold template result threshold
            max_results).
Proof.
  intros Hmax. unfold find_template, find_all_templates.
  destruct template as [[w h]|]; [|reflexivity].
  destruct result as [result|msg]; [|reflexivity].
  destruct (Z.to_nat max_results) as [|n] eqn:Hn; [lia|].
  simpl. destruct (minMaxLoc result) as [[v [x y]]|] eqn:Hm; [|reflexivity].
  destruct (Qlt_bool v _); [reflexivity|].
  assert (Hc : has_cell result).
  { apply (scan_rows_has_cell 0). unfold minMaxLoc in Hm. rewrite Hm. eauto. }
  destruct (search_loop_returns n (suppress result x y w h) w h
              (match threshold with Some t => t | None => self_threshold end)
              [(x, y, w, h, v)] (suppress_has_cell _ _ _ _ _ Hc)) as [l Hl].
  rewrite Hl. apply search_loop_found in Hl as (new & -> & _). reflexivity.
Qed.

Lemma search_loop_matches (fuel : nat) (result : ScoreMap) (w h : Z) (thr : Q)
    (found l : list Match) :
  search_loop fuel result w h thr found = Returned l ->
  exists new,
    l = found ++ new /\
    (length new <= fuel)%nat /\
    Forall (fun m : Match =>
              exists x y score,
                m = (x, y, w, h, score) /\ Qlt_bool score thr = false) new.
Proof.
  revert result found. induction fuel as [|fuel IH]; intros result found; simpl.
  - intros [= <-]. exists []. rewrite app_nil_r.
    split; [reflexivity|]. split; [reflexivity | constructor].
  - destruct (minMaxLoc result) as [[max_val [x y]]|]; [|discriminate].
    destruct (Qlt_bool max_val thr) eqn:Hlt.
    + intros [= <-]. exists []. rewrite app_nil_r.
      split; [reflexivity|]. split; [simpl; lia | constructor].
    + intros Hloop. destruct (IH _ _ Hloop) as (new & -> & Hlen & Hall).
      exists ((x, y, w, h, max_val) :: new). rewrite <- app_assoc.
      split; [reflexivity|]. split; [simpl; lia|].
      constructor; [eauto 6 | exact Hall].
Qed.

(** X15.  [find_all_templates] returns at most [max_results] matches, none
    when the limit is zero or negative or the template cannot be loaded;
    every match carries the width and height of the template and a score
    that is not below the threshold in force. *)
Theorem find_all_templates_matches (self_threshold : Q)
    (template : option (Z * Z)) (result : outcome ScoreMap)
    (threshold : option Q) (max_results : Z) :
  let found :=
    find_all_templates self_threshold template result threshold max_results in
  let match_threshold :=
    match threshold with Some t => t | None => self_threshold end in
  (length found <= Z.to_nat max_results)%nat /\
  Forall (fun m : Match =>
            exists w h x y score,
              template = Some (w, h) /\ m = (x, y, w, h, score) /\
              Qlt_bool score match_threshold = false) found.
Proof.
  unfold find_all_templates.
  destruct template as [[w h]|]; [|split; [simpl; lia | constructor]].
  destruct result as [result|msg]; [|split; [simpl; lia | constructor]].
  destruct (search_loop _ result w h _ []) as [l|msg] eqn:Hl;
    [|split; [simpl; lia | constructor]].
  apply search_loop_matches in Hl as (new & -> & Hlen & Hall). simpl.
  split; [exact Hlen|].
  eapply Forall_impl; [exact Hall|].
  intros m (x & y & s & -> & Hs). exists w, h, x, y, s. auto.
Qed.

(** Near the top of the map the slice of rows is empty. *)
Lemma suppress_near_top (result : ScoreMap) (x y w h : Z) :
  0 <= y < h / 2 ->
  h + 2 * (h / 2) <= Z.of_nat (length result) ->
  suppress result x y w h = result.
Proof.
  intros Hy Hrows. unfold suppress, zero_slice.
  assert (2 * (h / 2) <= h) by (apply Z.mul_div_le; lia).
  rewrite <- (list_fmap_id result) at 2. rewrite <- imap_const.
  apply imap_ext. intros r row Hr. apply lookup_lt_Some in Hr. simpl.
  unfold in_slice, slice_bound.
  destruct (y - h / 2 <? 0) eqn:E1; [|lia].
  destruct (y + h / 2 + h <? 0) eqn:E2; [lia|].
  destruct (Z.max (y - h / 2 + Z.of_nat (length result)) 0 <=? Z.of_nat r) eqn:E3;
    [|reflexivity].
  destruct (Z.of_nat r <? Z.min (y + h / 2 + h) (Z.of_nat (length result))) eqn:E4;
    [lia | reflexivity].
Qed.

(** X16.  A best match less than [h // 2] rows from the top of a map of at
    least [h + 2 * (h // 2)] rows is not suppressed at all (the negative
    slice start counts from the end of the map and the slice is empty):
    [find_all_templates] then finds the same match again on every round and
    returns [max_results] copies of it. *)
Theorem find_all_templates_repeats_match_near_top (self_threshold : Q)
    (w h : Z) (result : ScoreMap) (threshold : option Q) (max_results : Z)
    (max_val : Q) (x y : Z) :
  minMaxLoc result = Some (max_val, (x, y)) ->
  Qlt_bool max_val
    (match threshold with Some t => t | None => self_threshold end) = false ->
  0 <= y < h / 2 ->
  h + 2 * (h / 2) <= Z.of_nat (length result) ->
  find_all_templates self_threshold (Some (w, h)) (Returned result) threshold
    max_results
  = replicate (Z.to_nat max_results) (x, y, w, h, max_val).
Proof.
  intros Hm Hthr Hy Hrows. unfold find_all_templates.
  set (thr := match threshold with Some t => t | None => self_threshold end) in *.
  assert (Hloop : forall fuel found,
             search_loop fuel result w h thr found
             = Returned (found ++ replicate fuel (x, y, w, h, max_val))).
  { induction fuel as [|fuel IH]; intros found; simpl.
    - rewrite app_nil_r. reflexivity.
    - rewrite Hm, Hthr, (suppress_near_top _ _ _ _ _ Hy Hrows), IH.
      rewrite <- app_assoc. reflexivity. }
  rewrite Hloop. reflexivity.
Qed.

End Matching.

Section Roi.
Import ImageProcessor.

Lemma slice_window {B : Type} (l : list B) (a n : Z) :
  0 <= a -> 0 <= n -> a + n <= Z.of_nat (length l) ->
  length (slice l a (a + n)) = Z.to_nat n /\
  forall i : nat, (i < Z.to_nat n)%nat ->
                  slice l a (a + n) !! i = l !! (Z.to_nat a + i)%nat.
Proof.
  intros Ha Hn Hfit. unfold slice, slice_bound.
  destruct (a <? 0) eqn:E1; [lia|]. destruct (a + n <? 0) eqn:E2; [lia|].
  rewrite !Z.min_l by lia. replace (a + n - a) with n by lia. split.
  - rewrite length_take, length_drop. lia.
  - intros i Hi. rewrite lookup_take_lt by exact Hi. apply lookup_drop.
Qed.

Context {A : Type}.

(** X17.  On an image of [H] rows of [W] pixels, [H] and [W] positive, and
    for a width and a height that are not negative, [get_roi] cuts a window
    that lies inside the image: its corner is moved into the image, its
    size is cut down to what is left of the image from there, and the
    region returned has that many rows and columns, each pixel being the
    pixel of the image at the same offset from the corner. *)
Theorem get_roi_inside_image (image : list (list A)) (img_width : Z)
    (x y width height : Z) :
  rectangular img_width image -> 0 < img_width -> image <> [] ->
  0 <= width -> 0 <= height ->
  let img_height := Z.of_nat (length image) in
  let '(x', y', w', h') := roi_window image x y width height in
  let roi := get_roi image x y width height in
  (0 <= x' /\ 0 <= w' /\ x' + w' <= img_width) /\
  (0 <= y' /\ 0 <= h' /\ y' + h' <= img_height) /\
  length roi = Z.to_nat h' /\
  Forall (fun row => length row = Z.to_nat w') roi /\
  forall i j : nat,
    (i < Z.to_nat h')%nat -> (j < Z.to_nat w')%nat ->
    (roi !! i ≫= fun row => row !! j)
    = (image !! (Z.to_nat y' + i)%nat ≫= fun row => row !! (Z.to_nat x' + j)%nat).
Proof.
  intros Hrect Hw Hne Hwidth Hheight img_height.
  unfold get_roi, roi_window.
  assert (Hshape : shape image = (img_height, img_width)).
  { unfold shape. destruct image as [|row image']; [congruence|].
    inversion Hrect; subst. reflexivity. }
  rewrite Hshape.
  set (x' := Z.max 0 (Z.min x (img_width - 1))).
  set (y' := Z.max 0 (Z.min y (img_height - 1))).
  set (w' := Z.min width (img_width - x')).
  set (h' := Z.min height (img_height - y')).
  assert (0 < img_height) by (subst img_height; destruct image; [congruence | simpl; lia]).
  assert (Hx : 0 <= x' /\ 0 <= w' /\ x' + w' <= img_width) by lia.
  assert (Hy : 0 <= y' /\ 0 <= h' /\ y' + h' <= img_height) by lia.
  destruct (slice_window image y' h') as [Hlen Hrows]; [lia | lia | lia |].
  split; [exact Hx|]. split; [exact Hy|]. split; [|split].
  - rewrite length_map. exact Hlen.
  - apply Forall_forall. intros row Hin.
    apply list_elem_of_fmap in Hin as (row0 & -> & Hin0).
    apply list_elem_of_lookup in Hin0 as [i Hi].
    assert (Hi' : (i < Z.to_nat h')%nat)
      by (rewrite <- Hlen; eapply lookup_lt_Some; exact Hi).
    rewrite (Hrows i Hi') in Hi.
    assert (Z.of_nat (length row0) = img_width).
    { eapply Forall_forall in Hrect; [exact Hrect|].
      apply list_elem_of_lookup. eauto. }
    apply (slice_window row0 x' w'); lia.
  - intros i j Hi Hj. rewrite list_lookup_fmap, (Hrows i Hi).
    destruct (image !! (Z.to_nat y' + i)%nat) as [row0|] eqn:Hrow; [|reflexivity].
    simpl.
    assert (Z.of_nat (length row0) = img_width).
    { eapply Forall_forall in Hrect; [exact Hrect|].
      apply list_elem_of_lookup. eauto. }
    apply (slice_window row0 x' w'); [lia | lia | lia | exact Hj].
Qed.

End Roi.

(** The first of the two peaks of the sample map. *)
Lemma find_template_is_first_of_all_witness :
  0 < 5 /\
  ImageProcessor.find_template (8 # 10) (Some (2, 2))
    (Returned ImageProcessor.two_peaks) None
  = head (ImageProcessor.find_all_templates (8 # 10) (Some (2, 2))
            (Returned ImageProcessor.two_peaks) None 5).
Proof.
  assert (H : 0 < 5) by lia.
  split; [exact H|].
  exact (find_template_is_first_of_all (8 # 10) (Some (2, 2))
           (Returned ImageProcessor.two_peaks) None 5 H).
Defined.

(** A single peak in the top row of a map of four rows, with a template
    of height two, is returned three times for a limit of three. *)
Lemma find_all_templates_repeats_match_near_top_witness :
  ImageProcessor.minMaxLoc [[1; 0]; [0; 0]; [0; 0]; [0; 0]]%Q
  = Some (1%Q, (0, 0)) /\
  ImageProcessor.find_all_templates (8 # 10) (Some (2, 2))
    (Returned [[1; 0]; [0; 0]; [0; 0]; [0; 0]]%Q) None 3
  = [(0, 0, 2, 2, 1%Q); (0, 0, 2, 2, 1%Q); (0, 0, 2, 2, 1%Q)].
Proof.
  assert (H : ImageProcessor.minMaxLoc [[1; 0]; [0; 0]; [0; 0]; [0; 0]]%Q
              = Some (1%Q, (0, 0))) by reflexivity.
  split; [exact H|].
  refine (find_all_templates_repeats_match_near_top (8 # 10) 2 2
            [[1; 0]; [0; 0]; [0; 0]; [0; 0]]%Q None 3 1%Q 0 0 H eq_refl _ _).
  - vm_compute. split; [discriminate | reflexivity].
  - vm_compute. discriminate.
Defined.

(** A window of five by five asked at column 1 of an image of two rows of
    three pixels. *)
Lemma get_roi_inside_image_witness :
  ImageProcessor.rectangular 3 [[1; 2; 3]; [4; 5; 6]] /\
  ImageProcessor.roi_window [[1; 2; 3]; [4; 5; 6]] 1 0 5 5 = (1, 0, 2, 2) /\
  length (ImageProcessor.get_roi [[1; 2; 3]; [4; 5; 6]] 1 0 5 5) = 2%nat.
Proof.
  assert (H : ImageProcessor.rectangular 3 [[1; 2; 3]; [4; 5; 6]])
    by (repeat constructor).
  split; [exact H|]. split; [reflexivity|].
  refine (proj1 (proj2 (proj2
    (get_roi_inside_image [[1; 2; 3]; [4; 5; 6]] 3 1 0 5 5 H _ _ _ _)))).
  - lia.
  - discriminate.
  - lia.
  - lia.
Defined.

(** ** Script store: loading, caching, reading *)

Section Cache.
Import Py Script ConfigLoader.
Variable fs : FileSystem.

(** A script that has been loaded is served from the cache from then
    on: whatever becomes of its file, [load_config] returns the same entry
    and leaves the store as it is. *)
Theorem load_config_serves_from_cache (config_name : string)
    (cl cl' : ConfigLoader) (e : Entry) (fs_later : FileSystem) :
  load_config fs config_name cl = (Some e, cl') ->
  load_config fs_later config_name cl' = (Some e, cl').
Proof.
  intros Hload. apply load_config_cached.
  exact (load_config_some _ _ _ _ _ Hload).
Qed.

(** X18.  For a script that is not cached, [load_config] succeeds exactly
    when the file executes to a module whose [CONFIG] attribute is a
    dictionary; the entry returned and cached holds that module and that
    dictionary, and the cached entries of other names are as before. *)
Theorem load_config_succeeds_iff (config_name : string) (cl : ConfigLoader)
    (e : Entry) :
  loaded_configs cl !! config_name = None ->
  (fst (load_config fs config_name cl) = Some e <->
   exists m config,
     fs (config_path cl config_name) = Executed m /\
     m !! "CONFIG" = Some (AValue (VDict config)) /\
     e = entry_of cl config_name m config) /\
  forall other, other <> config_name ->
    loaded_configs (snd (load_config fs config_name cl)) !! other
    = loaded_configs cl !! other.
Proof.
  intros Hnone. unfold load_config. rewrite Hnone.
  destruct (fs (config_path cl config_name)) as [| | |m] eqn:Hfs.
  1-3: split; [split; [discriminate | intros (m & c & [=] & _)]|reflexivity].
  destruct (m !! "CONFIG") as [[f|v]|] eqn:Hc.
  - split; [split; [discriminate|]|reflexivity].
    intros (m' & c & [= <-] & Hc' & _). congruence.
  - destruct v;
      try (split; [split; [discriminate|]|reflexivity];
           intros (m' & c & [= <-] & Hc' & _); congruence).
    simpl. split.
    + split.
      * intros [= <-]. exists m, d. repeat split. exact Hc.
      * intros (m' & c & [= <-] & Hc' & ->).
        rewrite Hc in Hc'. injection Hc' as <-. reflexivity.
    + intros other Hne. apply lookup_insert_ne. congruence.
  - split; [split; [discriminate|]|reflexivity].
    intros (m' & c & [= <-] & Hc' & _). congruence.
Qed.


Lemma load_all_fold (config_names : list string) (cl : ConfigLoader) :
  (forall n e, loaded_configs cl !! n = Some e ->
               fs (path e) = Executed (module e) /\ name e = n) ->
  forall n e,
    loaded_configs (foldl (fun cl config_name =>
                             snd (load_config fs config_name cl))
                          cl config_names) !! n = Some e ->
    (loaded_configs cl !! n = Some e \/ n ∈ config_names) /\
    fs (path e) = Executed (module e) /\ name e = n.
Proof.
  revert cl. induction config_names as [|c names IH]; intros cl Hinv n e; simpl.
  - intros H. split; [left; exact H | apply Hinv, H].
  - intros H.
    assert (Hinv' : forall n e,
               loaded_configs (snd (load_config fs c cl)) !! n = Some e ->
               (loaded_configs cl !! n = Some e \/ n = c) /\
               fs (path e) = Executed (module e) /\ name e = n).
    { intros n0 e0. unfold load_config.
      destruct (loaded_configs cl !! c) as [ec|] eqn:Hc; simpl.
      - intros H0. split; [left; exact H0 | apply Hinv, H0].
      - destruct (fs (config_path cl c)) as [| | |m] eqn:Hfs; simpl;
          try (intros H0; split; [left; exact H0 | apply Hinv, H0]).
        destruct (m !! "CONFIG") as [[f|v]|]; simpl;
          try (intros H0; split; [left; exact H0 | apply Hinv, H0]).
        destruct v; simpl;
          try (intros H0; split; [left; exact H0 | apply Hinv, H0]).
        destruct (decide (c = n0)) as [<-|Hne].
        + rewrite lookup_insert_eq. intros [= <-]. simpl.
          split; [right; reflexivity|]. split; [exact Hfs | reflexivity].
        + rewrite lookup_insert_ne by exact Hne.
          intros H0. split; [left; exact H0 | apply Hinv, H0]. }
    destruct (IH (snd (load_config fs c cl))
                 (fun n0 e0 H0 => proj2 (Hinv' n0 e0 H0)) n e H)
      as [[Hold | Hin] Hok].
    + destruct (Hinv' n e Hold) as [[H0 | ->] _].
      * split; [left; exact H0 | exact Hok].
      * split; [right; left | exact Hok].
    + split; [right; right; exact Hin | exact Hok].
Qed.

(** X20.  [load_all_configs] starts from an empty cache: afterwards every
    cached script is one of the scanned names, stored under its own name,
    and was made from a file that executes now; what was cached before and
    is not scanned any more is gone. *)
Theorem load_all_configs_reflects_files (config_names : list string)
    (cl : ConfigLoader) (n : string) (e : Entry) :
  loaded_configs (load_all_configs fs config_names cl) !! n = Some e ->
  n ∈ config_names /\ fs (path e) = Executed (module e) /\ name e = n.
Proof.
  unfold load_all_configs. intros H.
  destruct (load_all_fold config_names (set_loaded ∅ cl)) with (n := n) (e := e)
    as [[Hold | Hin] Hok]; [| exact H | | ].
  - intros n0 e0. simpl. rewrite lookup_empty. discriminate.
  - simpl in Hold. rewrite lookup_empty in Hold. discriminate.
  - split; [exact Hin | exact Hok].
Qed.

(** X21.  [get_config_steps] hands out the step list that
    [validate_config] checked: for a script that validates, it returns the
    list under [steps] of the entry [load_config] gives; for a script that
    does not load it returns the empty list. *)
Theorem get_config_steps_of_valid_script (config_name : string)
    (cl : ConfigLoader) :
  (fst (validate_config fs config_name cl) = true ->
   exists e,
     fst (load_config fs config_name cl) = Some e /\
     assoc "steps" (config e) = Some (VList (fst (get_config_steps fs config_name cl)))) /\
  (fst (load_config fs config_name cl) = None ->
   fst (get_config_steps fs config_name cl) = []).
Proof.
  assert (Hval : get_config_value fs config_name "steps" (VList []) cl
                 = (match fst (load_config fs config_name cl) with
                    | Some e => get_default "steps" (VList []) (config e)
                    | None => VList []
                    end, snd (load_config fs config_name cl))).
  { unfold get_config_value, is_config_loaded.
    destruct (loaded_configs cl !! config_name) as [e|] eqn:Hl.
    - rewrite bool_decide_eq_true_2 by eauto.
      rewrite (load_config_cached _ _ _ _ Hl). simpl. rewrite Hl. reflexivity.
    - rewrite bool_decide_eq_false_2 by (intros [x Hx]; discriminate).
      destruct (load_config fs config_name cl) as [[e|] cl'] eqn:Hload; simpl.
      + rewrite (load_config_some _ _ _ _ _ Hload). reflexivity.
      + reflexivity. }
  unfold get_config_steps. rewrite Hval. split.
  - rewrite validate_config_pair. simpl.
    destruct (fst (load_config fs config_name cl)) as [e|]; [|discriminate].
    intros Hcheck. exists e. split; [reflexivity|].
    apply check_config_iff in Hcheck as (a & s & _ & Hs & _).
    unfold get_default. rewrite Hs. reflexivity.
  - intros ->. reflexivity.
Qed.

End Cache.

(** A script file whose [CONFIG] is a dictionary, loaded into the empty
    store. *)
Lemma load_config_succeeds_iff_witness :
  let m := ConfigLoader.module_of [("actions", Py.VList []); ("steps", Py.VList [])] in
  let fs := ConfigLoader.one_file "configs/demo.py" m in
  let e := ConfigLoader.entry_of ConfigLoader.empty_loader "demo" m
             [("actions", Py.VList []); ("steps", Py.VList [])] in
  ConfigLoader.loaded_configs ConfigLoader.empty_loader !! "demo" = None /\
  (fst (ConfigLoader.load_config fs "demo" ConfigLoader.empty_loader) = Some e
   <-> exists m' config,
         fs (ConfigLoader.config_path ConfigLoader.empty_loader "demo")
         = ConfigLoader.Executed m' /\
         m' !! "CONFIG" = Some (Script.AValue (Py.VDict config)) /\
         e = ConfigLoader.entry_of ConfigLoader.empty_loader "demo" m' config).
Proof.
  intros m fs e.
  assert (H : ConfigLoader.loaded_configs ConfigLoader.empty_loader !! "demo"
              = None) by reflexivity.
  split; [exact H|].
  exact (proj1 (load_config_succeeds_iff fs "demo" ConfigLoader.empty_loader
                  e H)).
Defined.


(** The store after [load_all_configs] on a directory of one script. *)
Lemma load_all_configs_reflects_files_witness :
  let m := ConfigLoader.module_of [("actions", Py.VList []); ("steps", Py.VList [])] in
  let fs := ConfigLoader.one_file "configs/demo.py" m in
  let e := ConfigLoader.entry_of ConfigLoader.empty_loader "demo" m
             [("actions", Py.VList []); ("steps", Py.VList [])] in
  ConfigLoader.loaded_configs
    (ConfigLoader.load_all_configs fs ["demo"] ConfigLoader.empty_loader)
    !! "demo" = Some e /\
  "demo" ∈ ["demo"] /\
  fs (ConfigLoader.path e) = ConfigLoader.Executed (ConfigLoader.module e) /\
  ConfigLoader.name e = "demo".
Proof.
  intros m fs e.
  assert (H : ConfigLoader.loaded_configs
                (ConfigLoader.load_all_configs fs ["demo"]
                   ConfigLoader.empty_loader) !! "demo" = Some e)
    by (vm_compute; reflexivity).
  split; [exact H|].
  exact (load_all_configs_reflects_files fs ["demo"]
           ConfigLoader.empty_loader "demo" e H).
Defined.

(** ** Executor: the calls of a run *)

Section Calls.
Import Py Script ActionExecutor.
Variable env : Env.
Variable device_id : string.

Lemma tag_calls (action : pyval) (ex : Executor) :
  calls (tag device_id action ex) = calls ex.
Proof. reflexivity. Qed.

Lemma call_finalize_calls (config_module : py_module) (success : bool)
    (ex : Executor) :
  calls (call_finalize device_id config_module success ex)
  = calls ex
    ++ (if hasattr config_module "finalize"
        then [CalledFinalize success] else []).
Proof.
  unfold call_finalize, hasattr.
  destruct (config_module !! "finalize") as [a|]; simpl.
  - destruct (call a _ _) as [r dm]. reflexivity.
  - rewrite app_nil_r. reflexivity.
Qed.

(** One pass through the loop body calls at most one handler, and a pass
    that goes on to the next step in a run that is not stopped calls the
    handler of the step unless the step is disabled. *)
Lemma run_step_calls (config_module : py_module)
    (enabled_steps : list (string * pyval)) (i : nat) (step : pyval)
    (ex ex' : Executor) (e : step_exit) :
  run_step env device_id config_module enabled_steps i step ex = (e, ex') ->
  exists hs, calls ex' = calls ex ++ map CalledHandler hs
    /\ (length hs <= 1)%nat
    /\ (e = Next -> hs = planned_actions enabled_steps i [step]).
Proof.
  unfold run_step. intros H.
  destruct (negb (running_at env i)); [quiet_exit H|].
  destruct (gate_at env i); [|quiet_exit H].
  destruct step as [| | | | | |step]; try quiet_exit H.
  cbn [planned_actions].
  destruct (step_disabled enabled_steps _) as [[|]|msg].
  - injection H as <- <-. exists []. simpl. rewrite app_nil_r.
    split; [reflexivity|]. split; [lia|]. reflexivity.
  - destruct (negb (truthy (get_default "action" VNone step)));
      [quiet_exit H|].
    destruct (get_default "action" VNone step) as [| | | |a| |];
      try quiet_exit H.
    destruct (config_module !! a) as [[f|v]|]; try quiet_exit H.
    destruct (f _ _) as [r dm].
    destruct r as [v|msg]; [destruct (negb (truthy v))|];
      injection H as <- <-; exists [a]; simpl;
      (split; [reflexivity|]); (split; [lia|]);
      first [discriminate | reflexivity].
  - quiet_exit H.
Qed.

Lemma planned_actions_cons (enabled_steps : list (string * pyval)) (i : nat)
    (step : pyval) (steps : list pyval) :
  planned_actions enabled_steps i (step :: steps)
  = planned_actions enabled_steps i [step]
    ++ planned_actions enabled_steps (S i) steps.
Proof.
  cbn [planned_actions].
  destruct step as [| | | | | |step]; try reflexivity.
  destruct (step_disabled enabled_steps _) as [[|]|msg];
    destruct (get_default "action" VNone step); reflexivity.
Qed.

Lemma run_steps_calls (config_module : py_module)
    (enabled_steps : list (string * pyval)) (steps : list pyval) :
  forall (i : nat) (ex ex' : Executor) (e : loop_exit),
  run_steps env device_id config_module enabled_steps i steps ex = (e, ex') ->
  exists hs, calls ex' = calls ex ++ map CalledHandler hs
    /\ (length hs <= length steps)%nat
    /\ ((forall j, running_at env j = true) -> e = Finished true ->
        hs = planned_actions enabled_steps i steps).
Proof.
  induction steps as [|step steps IH]; intros i ex ex' e H.
  - injection H as <- <-. exists []. simpl. rewrite app_nil_r.
    repeat split; lia.
  - cbn [run_steps] in H.
    destruct (run_step env device_id config_module enabled_steps i step ex)
      as [x ex1] eqn:Hstep.
    pose proof Hstep as Hrun.
    apply run_step_calls in Hstep as (hs1 & Hc1 & Hl1 & Hp1).
    destruct x as [|success| |msg].
    + apply IH in H as (hs2 & Hc2 & Hl2 & Hp2).
      exists (hs1 ++ hs2). rewrite Hc2, Hc1, map_app, app_assoc.
      split; [reflexivity|]. split; [rewrite length_app; simpl; lia|].
      intros Hq He. rewrite planned_actions_cons, Hp1, Hp2 by auto.
      reflexivity.
    + injection H as <- <-. exists hs1. split; [exact Hc1|].
      split; [simpl; lia|].
      intros Hq He. injection He as ->. exfalso. clear - Hrun Hq.
      unfold run_step in Hrun. rewrite Hq in Hrun. simpl in Hrun.
      destruct (gate_at env i); [|discriminate].
      destruct step as [| | | | | |step]; try discriminate.
      destruct (step_disabled enabled_steps _) as [[|]|msg]; try discriminate.
      destruct (negb (truthy (get_default "action" VNone step)));
        [discriminate|].
      destruct (get_default "action" VNone step) as [| | | |a| |];
        try discriminate.
      destruct (config_module !! a) as [[f|v]|]; try discriminate.
      destruct (f _ _) as [r dm]. destruct r as [v|msg]; [|discriminate].
      destruct (negb (truthy v)); discriminate.
    + injection H as <- <-. exists hs1. split; [exact Hc1|].
      split; [simpl; lia|]. discriminate.
    + injection H as <- <-. exists hs1. split; [exact Hc1|].
      split; [simpl; lia|]. discriminate.
Qed.

Lemma forget_forgotten (ex : Executor) :
  forgotten device_id (forget device_id ex).
Proof.
  split; simpl; [apply lookup_delete_eq|].
  rewrite elem_of_difference, elem_of_singleton. tauto.
Qed.

Lemma execute_steps_forgets (config_module : py_module)
    (config : list (string * pyval)) (steps : list pyval) (ex : Executor) :
  exists ex0,
    snd (execute_steps env device_id config_module config steps ex)
    = forget device_id ex0.
Proof.
  unfold execute_steps.
  destruct (get_default "enabled_steps" (VDict []) config);
    try (eexists; reflexivity).
  destruct (run_steps _ _ _ _ _ _ _) as [[s| |msg] ex1]; eexists; reflexivity.
Qed.


(** X23.  [execute_config] for a device that is not connected (or not in
    the roster) returns [False] without calling anything of the script,
    neither [initialize] nor a handler nor [finalize], and leaves the
    device records as they are. *)
Theorem execute_config_needs_connected_device (config_name : string)
    (device_logger : option unit) (ex : Executor) :
  DeviceManager.device_connected device_id (device_manager ex) = false ->
  let r := execute_config env device_id config_name device_logger ex in
  fst r = false /\ calls (snd r) = calls ex
  /\ DeviceManager.devices (device_manager (snd r))
     = DeviceManager.devices (device_manager ex).
Proof.
  intros Hconn. unfold execute_config.
  set (ex0 := match device_logger with None => _ | Some _ => ex end).
  assert (Hdev : DeviceManager.devices (device_manager ex0)
                 = DeviceManager.devices (device_manager ex)).
  { subst ex0. destruct device_logger; [reflexivity|].
    apply get_device_logger_devices. }
  assert (Hcalls : calls ex0 = calls ex).
  { subst ex0. destruct device_logger; reflexivity. }
  assert (Hc0 : DeviceManager.device_connected device_id (device_manager ex0)
                = false).
  { revert Hconn. unfold DeviceManager.device_connected, DeviceManager.known,
      DeviceManager.is_connected. rewrite Hdev. tauto. }
  destruct (ConfigLoader.validate_config _ _ _) as [valid cl].
  destruct (negb valid); [simpl; auto|].
  destruct (ConfigLoader.get_loaded_config _ _) as [d|]; [|simpl; auto].
  cbn [set_cl mark_running device_manager]. rewrite Hc0. simpl. auto.
Qed.

(** X24.  A run that nobody stops and that ends with success has called
    the handler of every step that is not disabled, once each and in the
    order of the steps, and then [finalize] with [True] when the script has
    one; it has called nothing else from the step loop on. *)
Theorem execute_steps_success_calls_planned_handlers
    (config_module : py_module) (config : list (string * pyval))
    (enabled_steps : list (string * pyval)) (steps : list pyval)
    (ex : Executor) :
  (forall j, running_at env j = true) ->
  get_default "enabled_steps" (VDict []) config = VDict enabled_steps ->
  let r := execute_steps env device_id config_module config steps ex in
  fst r = true ->
  calls (snd r)
  = calls ex
    ++ map CalledHandler (planned_actions enabled_steps 0 steps)
    ++ (if hasattr config_module "finalize"
        then [CalledFinalize true] else []).
Proof.
  intros Hq Hen. unfold execute_steps. rewrite Hen.
  destruct (run_steps env device_id config_module enabled_steps 0 steps ex)
    as [e ex1] eqn:Hrun.
  apply run_steps_calls in Hrun as (hs & Hc & _ & Hp).
  destruct e as [success| |msg]; simpl; try discriminate.
  intros ->. rewrite call_finalize_calls, tag_calls, Hc, Hp by auto.
  rewrite app_assoc. reflexivity.
Qed.

(** X25.  Whatever happens in the step loop, the calls [execute_config]
    makes from the loop on are handlers, at most one per step, followed by
    at most one call of [finalize], which is told the value that
    [execute_config] returns. *)
Theorem execute_steps_calls_shape (config_module : py_module)
    (config : list (string * pyval)) (steps : list pyval) (ex : Executor) :
  let r := execute_steps env device_id config_module config steps ex in
  exists hs fin,
    calls (snd r) = calls ex ++ map CalledHandler hs ++ fin
    /\ (length hs <= length steps)%nat
    /\ (fin = [] \/ fin = [CalledFinalize (fst r)]).
Proof.
  unfold execute_steps.
  destruct (get_default "enabled_steps" (VDict []) config) as [| | | | | |en];
    try (exists [], []; simpl; rewrite app_nil_r;
         repeat split; [lia | left; reflexivity]).
  destruct (run_steps env device_id config_module en 0 steps ex)
    as [e ex1] eqn:Hrun.
  apply run_steps_calls in Hrun as (hs & Hc & Hl & _).
  destruct e as [success| |msg]; simpl.
  - exists hs, (if hasattr config_module "finalize"
                then [CalledFinalize success] else []).
    rewrite call_finalize_calls, tag_calls, Hc, app_assoc.
    repeat split; [exact Hl|].
    destruct (hasattr config_module "finalize"); auto.
  - exists hs, []. rewrite Hc, app_nil_r. repeat split; [exact Hl | auto].
  - exists hs, []. rewrite Hc, app_nil_r. repeat split; [exact Hl | auto].
Qed.

End Calls.

(** A run for a device that is not in the roster. *)
Lemma execute_config_needs_connected_device_witness :
  let env := ActionExecutor.quiet
               (ConfigLoader.one_file "configs/demo.py"
                  ActionExecutor.two_steps_module) in
  let ex := ActionExecutor.fresh ConfigLoader.empty_loader in
  DeviceManager.device_connected "10.9.9.9:5555"
    (ActionExecutor.device_manager ex) = false /\
  fst (ActionExecutor.execute_config env "10.9.9.9:5555" "demo" None ex)
  = false /\
  ActionExecutor.calls
    (snd (ActionExecutor.execute_config env "10.9.9.9:5555" "demo" None ex))
  = ActionExecutor.calls ex.
Proof.
  intros env ex.
  assert (H : DeviceManager.device_connected "10.9.9.9:5555"
                (ActionExecutor.device_manager ex) = false)
    by (vm_compute; reflexivity).
  split; [exact H|].
  pose proof (execute_config_needs_connected_device env "10.9.9.9:5555"
                "demo" None ex H) as (H1 & H2 & _).
  split; [exact H1 | exact H2].
Defined.

(** The script of two steps on the connected device of the sample roster:
    both handlers are called, in order. *)
Lemma execute_steps_success_calls_planned_handlers_witness :
  let env := ActionExecutor.quiet ConfigLoader.no_files in
  let config := [("actions", Py.VList []);
                 ("steps", Py.VList ActionExecutor.two_steps)] in
  let ex := ActionExecutor.fresh ConfigLoader.empty_loader in
  let r := ActionExecutor.execute_steps env "127.0.0.1:5555"
             ActionExecutor.two_steps_module config
             ActionExecutor.two_steps ex in
  fst r = true /\
  ActionExecutor.calls (snd r)
  = [ActionExecutor.CalledHandler "nop"; ActionExecutor.CalledHandler "nop"].
Proof.
  intros env config ex r.
  assert (H : fst r = true) by (vm_compute; reflexivity).
  split; [exact H|].
  exact (execute_steps_success_calls_planned_handlers env "127.0.0.1:5555"
           ActionExecutor.two_steps_module config [] ActionExecutor.two_steps
           ex (fun _ => eq_refl) eq_refl H).
Defined.

(** ** Scheduler: the trigger loop and the lifecycle *)

Section Trigger.
Import Scheduler.
Variable s : Scheduler.
Variable run_cost : Z.

(** X26.  Every call of [run_automation] the trigger loop makes is made at
    a clock reading whose minute is in [run_minutes] while the minute
    before it is not. *)
Theorem scheduler_task_runs_only_when_due (fuel : nat) (now : Z) :
  Forall (fun t =>
            in_minutes (minute t) (run_minutes s) = true
            /\ in_minutes ((minute t - 1) mod 60) (run_minutes s) = false)
    (_scheduler_task fuel s run_cost now).
Proof.
  revert now. induction fuel as [|fuel IH]; intros now; cbn [_scheduler_task].
  - constructor.
  - destruct (negb (running s)); [constructor|].
    destruct (paused s); [apply IH|].
    destruct (should_run s now) eqn:Hdue; [|apply IH].
    constructor; [|apply IH].
    unfold should_run in Hdue.
    destruct (in_minutes (minute now) (run_minutes s)); [|discriminate].
    split; [reflexivity|]. apply negb_true_iff. exact Hdue.
Qed.

(** X27.  Two calls of [run_automation] by the trigger loop are at least
    ten seconds plus the duration of the first apart, and none is made
    before the loop starts. *)
Theorem scheduler_task_runs_are_spaced (fuel : nat) (now : Z) :
  0 <= run_cost ->
  let runs := _scheduler_task fuel s run_cost now in
  Forall (fun t => now <= t) runs
  /\ forall i t1 t2,
       runs !! i = Some t1 -> runs !! S i = Some t2 ->
       t1 + run_cost + 10 <= t2.
Proof.
  intros Hcost. revert now.
  induction fuel as [|fuel IH]; intros now; cbn [_scheduler_task].
  - split; [constructor | intros i t1 t2 H; discriminate].
  - destruct (negb (running s));
      [split; [constructor | intros i t1 t2 H; discriminate]|].
    assert (Hlater : forall d, 0 <= d ->
              let runs := _scheduler_task fuel s run_cost (now + d) in
              Forall (fun t => now <= t) runs
              /\ forall i t1 t2,
                   runs !! i = Some t1 -> runs !! S i = Some t2 ->
                   t1 + run_cost + 10 <= t2).
    { intros d Hd. destruct (IH (now + d)) as [Hall Hgap].
      split; [|exact Hgap].
      eapply Forall_impl; [exact Hall|]. simpl. intros t Ht. lia. }
    destruct (paused s); [apply (Hlater 1); lia|].
    destruct (should_run s now); [|apply (Hlater 10); lia].
    destruct (IH (now + run_cost + 10)) as [Hall Hgap].
    split.
    + constructor; [lia|].
      eapply Forall_impl; [exact Hall|]. simpl. intros t Ht. lia.
    + intros [|i] t1 t2 H1 H2.
      * injection H1 as <-.
        destruct (_scheduler_task fuel s run_cost (now + run_cost + 10))
          as [|t runs]; [discriminate|].
        injection H2 as <-. inversion Hall; subst. lia.
      * exact (Hgap i t1 t2 H1 H2).
Qed.

(** X28.  When every minute of [run_minutes] has its predecessor in
    [run_minutes] too (a schedule of all sixty minutes, for one), the
    trigger loop never calls [run_automation]. *)
Theorem scheduler_task_never_fires_on_closed_schedule (fuel : nat) (now : Z) :
  (forall m, in_minutes m (run_minutes s) = true ->
             in_minutes ((m - 1) mod 60) (run_minutes s) = true) ->
  _scheduler_task fuel s run_cost now = [].
Proof.
  intros Hclosed. revert now.
  induction fuel as [|fuel IH]; intros now; cbn [_scheduler_task];
    [reflexivity|].
  destruct (negb (running s)); [reflexivity|].
  destruct (paused s); [apply IH|].
  unfold should_run.
  destruct (in_minutes (minute now) (run_minutes s)) eqn:Hin; [|apply IH].
  rewrite (Hclosed _ Hin). apply IH.
Qed.

(** X29.  While the scheduler is paused or not running, the trigger loop
    calls [run_automation] at no time. *)
Theorem scheduler_task_idle_when_paused_or_stopped (fuel : nat) (now : Z) :
  running s = false \/ paused s = true ->
  _scheduler_task fuel s run_cost now = [].
Proof.
  intros Hidle. revert now.
  induction fuel as [|fuel IH]; intros now; cbn [_scheduler_task];
    [reflexivity|].
  destruct (running s); [|reflexivity].
  destruct Hidle as [Hr|Hp]; [discriminate|].
  rewrite Hp. simpl. apply IH.
Qed.

End Trigger.

Section Lifecycle.
Import Scheduler.

Lemma lifecycle_step (l : Lifecycle) (o : operation) :
  ((paused (flags l) = true -> running (flags l) = true)
   /\ (scheduler_task l = true -> running (flags l) = true)
   /\ (running (flags l) = true -> executor_made l = true)) ->
  let l' := apply_operation l o in
  (paused (flags l') = true -> running (flags l') = true)
  /\ (scheduler_task l' = true -> running (flags l') = true)
  /\ (running (flags l') = true -> executor_made l' = true).
Proof.
  intros (Hp & Ht & He).
  destruct o; simpl; unfold start, stop, pause, resume;
    destruct (running (flags l)) eqn:Hr; simpl;
    try destruct (paused (flags l)) eqn:Hpa; simpl;
    rewrite ?Hr, ?Hpa;
    repeat match goal with |- _ /\ _ => split end;
    intros; auto; try discriminate.
Qed.

(** X30.  After any sequence of [start], [stop], [pause] and [resume] on a
    new scheduler: a paused scheduler is running, a scheduler with a
    trigger task is running, and a running scheduler has its executor. *)
Theorem scheduler_lifecycle_invariant (enabled : bool) (run_minutes : list Z)
    (ops : list operation) :
  let l := foldl apply_operation (initial enabled run_minutes) ops in
  (paused (flags l) = true -> running (flags l) = true)
  /\ (scheduler_task l = true -> running (flags l) = true)
  /\ (running (flags l) = true -> executor_made l = true).
Proof.
  induction ops as [|o ops IH] using rev_ind.
  - simpl. repeat split; discriminate.
  - rewrite foldl_snoc. apply lifecycle_step. exact IH.
Qed.

(** [pause] followed by [resume] on a scheduler that runs and is not
    paused gives the scheduler back as it was; [pause] on a paused one and
    [resume] on one that is not paused change nothing. *)
Theorem scheduler_pause_resume_round_trip (l : Lifecycle) :
  running (flags l) = true ->
  (paused (flags l) = false -> resume (pause l) = l)
  /\ (paused (flags l) = true -> pause l = l)
  /\ (paused (flags l) = false -> resume l = l).
Proof.
  intros Hr. destruct l as [[en rm r p] em st rt]. simpl in *. subst r.
  unfold resume, pause; simpl.
  repeat split; intros ->; reflexivity.
Qed.

End Lifecycle.

(** The default schedule with runs of one second. *)
Lemma scheduler_task_runs_are_spaced_witness :
  0 <= 1 /\
  Forall (fun t => 300 <= t)
    (Scheduler._scheduler_task 12 Scheduler.default_scheduler 1 300).
Proof.
  assert (H : 0 <= 1) by lia.
  split; [exact H|].
  exact (proj1 (scheduler_task_runs_are_spaced Scheduler.default_scheduler 1
                  12 300 H)).
Defined.

(** The schedule of all sixty minutes never fires. *)
Lemma scheduler_task_never_fires_on_closed_schedule_witness :
  Scheduler.in_minutes 5 (Scheduler.run_minutes Scheduler.every_minute) = true /\
  Scheduler._scheduler_task 12 Scheduler.every_minute 1 300 = [].
Proof.
  split; [reflexivity|].
  apply (scheduler_task_never_fires_on_closed_schedule Scheduler.every_minute
           1 12 300).
  intros m Hm. unfold Scheduler.in_minutes in Hm.
  apply existsb_exists in Hm as (x & Hin & Heq).
  apply Z.eqb_eq in Heq. subst x.
  cbn in Hin.
  repeat (destruct Hin as [<-|Hin]; [reflexivity|]).
  contradiction.
Defined.

(** The default schedule, paused. *)
Lemma scheduler_task_idle_when_paused_or_stopped_witness :
  let s := {| Scheduler.enabled := true; Scheduler.run_minutes := [5; 25; 45];
              Scheduler.running := true; Scheduler.paused := true |} in
  (Scheduler.running s = false \/ Scheduler.paused s = true) /\
  Scheduler._scheduler_task 12 s 1 300 = [].
Proof.
  intros s.
  assert (H : Scheduler.running s = false \/ Scheduler.paused s = true)
    by (right; reflexivity).
  split; [exact H|].
  exact (scheduler_task_idle_when_paused_or_stopped s 1 12 300 H).
Defined.
